(** * API gateway: a shallow embedding of [backend/api-gateway/src/server.js]

    The gateway is an Express application: an ordered stack of layers
    (routes and mounted middleware), a token-validating middleware, a
    proxying handler built by [proxyOptions], an endpoint that merges the
    OpenAPI documents of the backends, and a final error handler.

    The development follows the file top-down.  Values of the host
    language are [jsval]; objects used as dictionaries (headers, the
    merged [paths] and [components]) are [gmap string _]; the effects of a
    request (token validation, outbound calls) are recorded in an event
    trace that every handler returns next to its result. *)

From Stdlib Require Import Ascii ZArith Bool.
From stdpp Require Import base strings gmap list pretty.

Set Warnings "-register-all".
#[local] Open Scope Z_scope.

(** ** JavaScript values *)

Inductive jsval : Type :=
| JUndefined
| JNull
| JBool (b : bool)
| JNum (n : Z)
| JStr (s : string)
| JArr (l : list jsval)
| JObj (m : gmap string jsval).

(** [ToBoolean]: what [if (v)], [!v] and [v || d] look at.  Numbers are
    the integers here, so the only falsy one is [0]. *)
Definition truthy (v : jsval) : bool :=
  match v with
  | JUndefined | JNull => false
  | JBool b => b
  | JNum n => negb (n =? 0)
  | JStr s => negb (String.eqb s EmptyString)
  | JArr _ | JObj _ => true
  end.

(** [a || d] *)
Definition js_or (a d : jsval) : jsval := if truthy a then a else d.

(** A string-or-undefined slot ([process.env.X], [req.headers.x]) seen as
    a value. *)
Definition of_slot (o : option string) : jsval :=
  match o with
  | Some s => JStr s
  | None => JUndefined
  end.

(** [o || d] for such a slot and a string default. *)
Definition slot_or (o : option string) (d : string) : string :=
  match o with
  | Some s => if String.eqb s EmptyString then d else s
  | None => d
  end.

(** A slot inside a template literal: [`${o}`]. *)
Definition interpolate (o : option string) : string :=
  match o with
  | Some s => s
  | None => "undefined"
  end.

(** [v.k]: property read.  The reads of the gateway are all on values
    already known not to be [null] or [undefined]; on other primitives a
    missing property is [undefined]. *)
Definition get_field (v : jsval) (k : string) : jsval :=
  match v with
  | JObj m => default JUndefined (m !! k)
  | _ => JUndefined
  end.

Fixpoint string_chars (s : string) : list string :=
  match s with
  | EmptyString => []
  | String c s' => String c EmptyString :: string_chars s'
  end.

Definition indexed {A} (f : A → jsval) (l : list A) : gmap string jsval :=
  list_to_map (imap (λ i x, (pretty i, f x)) l).

(** The own enumerable properties of a value, as [Object.assign] and the
    spread syntax read them from their source operand. *)
Definition own_props (v : jsval) : gmap string jsval :=
  match v with
  | JObj m => m
  | JArr l => indexed id l
  | JStr s => indexed JStr (string_chars s)
  | _ => ∅
  end.

(** [Object.assign(target, source)]: every property of the source is
    written over the target. *)
Definition object_assign (target : gmap string jsval) (source : jsval)
  : gmap string jsval :=
  own_props source ∪ target.

(** ** Strings *)

Module Str.

Fixpoint strip_prefix (p s : string) : option string :=
  match p with
  | EmptyString => Some s
  | String a p' =>
      match s with
      | EmptyString => None
      | String b s' => if Ascii.eqb a b then strip_prefix p' s' else None
      end
  end.

(** [s.startsWith(p)] *)
Definition startsWith (s p : string) : bool :=
  match strip_prefix p s with
  | Some _ => true
  | None => false
  end.

(** [s.replace(/^p/, r)] for a literal [p] and a replacement [r] without
    [$] patterns: only a match at position [0] is replaced. *)
Definition replace_leading (p r s : string) : string :=
  match strip_prefix p s with
  | Some rest => r +:+ rest
  | None => s
  end.

(** [s.split(sep)] for a one-character separator. *)
Fixpoint split_go (sep : ascii) (cur : string) (s : string) : list string :=
  match s with
  | EmptyString => [String.rev cur]
  | String c s' =>
      if Ascii.eqb c sep then String.rev cur :: split_go sep EmptyString s'
      else split_go sep (String c cur) s'
  end.

Definition split (sep : ascii) (s : string) : list string :=
  split_go sep EmptyString s.

(** The part of a URL before its query string. *)
Fixpoint before_query (s : string) : string :=
  match s with
  | EmptyString => EmptyString
  | String c s' =>
      if Ascii.eqb c "?" then EmptyString else String c (before_query s')
  end.

Definition lower (c : ascii) : ascii :=
  let n := nat_of_ascii c in
  if (65 <=? n)%nat && (n <=? 90)%nat then ascii_of_nat (n + 32) else c.

(** Prefix test of a regular expression with the [i] flag: letters are
    compared up to case. *)
Fixpoint strip_prefix_ci (p s : string) : option string :=
  match p with
  | EmptyString => Some s
  | String a p' =>
      match s with
      | EmptyString => None
      | String b s' =>
          if Ascii.eqb (lower a) (lower b) then strip_prefix_ci p' s'
          else None
      end
  end.

Definition drop_trailing_slash (p : string) : string :=
  match String.rev p with
  | String "/" r => String.rev r
  | _ => p
  end.

(** Two patterns part ways, up to case, before either ends: no string
    starts with both. *)
Fixpoint diverges (p q : string) : bool :=
  match p, q with
  | String a p', String b q' =>
      if Ascii.eqb (lower a) (lower b) then diverges p' q' else true
  | _, _ => false
  end.

End Str.

(** ** Configuration, requests, responses *)

(** [process.env], read through [dotenv]: every variable is a string or
    is unset. *)
Record environment := {
  PORT : option string;
  JWT_SECRET : option string;
  API_GATEWAY_URL : option string;
  USER_SERVICE_URL : option string;
  WORKSHEET_SERVICE_URL : option string;
  PAYMENT_SERVICE_URL : option string;
  NOTIFICATION_SERVICE_URL : option string
}.

Inductive http_method := GET | HEAD | POST | PUT | DELETE | PATCH | OPTIONS.

Definition method_eqb (a b : http_method) : bool :=
  match a, b with
  | GET, GET | HEAD, HEAD | POST, POST | PUT, PUT
  | DELETE, DELETE | PATCH, PATCH | OPTIONS, OPTIONS => true
  | _, _ => false
  end.

(** [req.user], as [validateToken] builds it. *)
Record identity := { userId : jsval; role : jsval }.

(** The inbound request as it arrives.  Header names are lower-case, as
    Node delivers them. *)
Record message := {
  method : http_method;
  originalUrl : string;
  headers : gmap string string;
  body : string
}.

(** Express's [req]: the message and the [req.user] slot, which only
    [validateToken] writes. *)
Record request := { msg : message; user : option identity }.

Definition incoming (m : message) : request := {| msg := m; user := None |}.

Definition path (r : request) : string :=
  Str.before_query (originalUrl (msg r)).

Definition set_user (r : request) (u : identity) : request :=
  {| msg := msg r; user := Some u |}.

(** What the gateway answers.  [ResJson] is [res.status(s).json(v)];
    [ResRelay] is a response whose status line, headers and body are
    written by the proxy middleware; [ResSwaggerUi] is the page of the
    documentation UI; [ResNotFound] is Express's own 404, sent when the
    stack is exhausted. *)
Inductive response :=
| ResJson (status : nat) (payload : jsval)
| ResRelay (status : nat) (hdrs : gmap string string) (content : string)
| ResSwaggerUi (swaggerUrl : string)
| ResNotFound.

Definition status_of (r : response) : nat :=
  match r with
  | ResJson s _ => s
  | ResRelay s _ _ => s
  | ResSwaggerUi _ => 200
  | ResNotFound => 404
  end.

(** The request the proxy sends to a backend. *)
Record outbound := {
  out_method : http_method;
  out_path : string;
  out_headers : gmap string jsval;
  out_body : string
}.

(** What comes back from a backend: a response, or a transport error
    with its [code] and [message]. *)
Inductive upstream_result :=
| Replied (status : nat) (hdrs : gmap string string) (content : string)
| Errored (code message : string).

(** An [axios.get] promise once settled; [Fulfilled] carries
    [r.value.data]. *)
Inductive settled :=
| Fulfilled (data : jsval)
| Rejected.

(** The observable effects of handling one request. *)
Inductive event :=
| EvValidateToken
| EvVerify (token secret : string)
| EvProxy (host : option string) (timeout : Z) (out : outbound)
| EvFetch (url : string).

Definition is_validation (e : event) : bool :=
  match e with
  | EvValidateToken | EvVerify _ _ => true
  | _ => false
  end.

(** The outbound calls of a trace, in order. *)
Definition proxy_calls (evs : list event) : list (option string * Z * outbound) :=
  omap (λ e, match e with
             | EvProxy host timeout out => Some (host, timeout, out)
             | _ => None
             end) evs.

(** ** Express: layers and path matching

    A layer is a path test and a handler.  A handler ends the request
    with a response, passes it on ([next()]), or fails ([next(err)]).
    Routing is Express's default one: not case sensitive, not strict
    about one trailing slash; a mounted path ([app.use]) matches a whole
    leading run of segments. *)

Inductive handler_result :=
| Done (res : response)
| Next (req : request)
| Fail (message : string).

Definition handler : Type := request → handler_result * list event.

Record layer := { accepts : request → bool; handle : handler }.

(** [app.get(p, ..)], [app.post(p, ..)]: the whole path is [p], up to
    case and one trailing slash. *)
Definition route_match (pattern p : string) : bool :=
  match Str.strip_prefix_ci (Str.drop_trailing_slash pattern) p with
  | Some rest => String.eqb rest EmptyString || String.eqb rest "/"
  | None => false
  end.

(** [app.use(p, ..)]: the path is [p] or continues it with [/]. *)
Definition mount_match (pattern p : string) : bool :=
  match Str.strip_prefix_ci (Str.drop_trailing_slash pattern) p with
  | Some rest => String.eqb rest EmptyString || Str.startsWith rest "/"
  | None => false
  end.

Definition get (pattern : string) (h : handler) : layer :=
  {| accepts r :=
       (method_eqb (method (msg r)) GET || method_eqb (method (msg r)) HEAD)
       && route_match pattern (path r);
     handle := h |}.

Definition post (pattern : string) (h : handler) : layer :=
  {| accepts r :=
       method_eqb (method (msg r)) POST && route_match pattern (path r);
     handle := h |}.

Definition use (pattern : string) (h : handler) : layer :=
  {| accepts r := mount_match pattern (path r); handle := h |}.

(** ** The handlers of [server.js] *)

Definition json_unauthorized (message : string) : response :=
  ResJson 401 (JObj {[ "success" := JBool false; "message" := JStr message ]}).

(** The security scheme the documentation endpoint always publishes. *)
Definition bearerAuth_scheme : jsval :=
  JObj {[ "bearerAuth" :=
            JObj {[ "type" := JStr "http"; "scheme" := JStr "bearer";
                    "bearerFormat" := JStr "JWT" ]} ]}.

Definition security_requirement : jsval :=
  JArr [JObj {[ "bearerAuth" := JArr [] ]}].

Section Gateway.

(** [jwt.verify(token, secret)]: the decoded payload, or [None] when it
    throws (bad signature, expired or malformed token, empty token). *)
Variable jwt_verify : string → string → option jsval.

(** The network behind the proxy: the answer of host [h] to a request
    sent with the given timeout (milliseconds).  A timeout shows as the
    error [ECONNRESET] of the aborted request. *)
Variable upstream : option string → Z → outbound → upstream_result.

(** [axios.get(url)], settled. *)
Variable axios_get : string → settled.

Variable env : environment.

(** [new Date().toISOString()] at the time of the request. *)
Variable now : string.

(** *** [proxyOptions] *)

Definition proxy_timeout : Z := 30000.

Definition proxyReqPathResolver (req : request) : string :=
  Str.replace_leading "/v1" "/api" (originalUrl (msg req)).

Definition proxyReqOptDecorator
    (proxyReqOpts : gmap string jsval) (srcReq : request)
  : gmap string jsval :=
  let with_user :=
    match user srcReq with
    | Some u =>
        let h := <["x-user-id" := userId u]> proxyReqOpts in
        if truthy (role u) then <["x-user-role" := role u]> h else h
    | None => proxyReqOpts
    end in
  let authorization := of_slot (headers (msg srcReq) !! "authorization") in
  if truthy authorization
  then <["authorization" := authorization]> with_user
  else with_user.

(** The headers the proxy middleware starts from, before the decorator
    runs: those of the inbound request without the hop-specific ones,
    and a [connection: close] of its own. *)
Definition reqHeaders (req : request) : gmap string jsval :=
  <["connection" := JStr "close"]>
    (JStr <$> delete "host"
                (delete "content-length"
                   (delete "connection" (headers (msg req))))).

Definition build_outbound (req : request) : outbound :=
  {| out_method := method (msg req);
     out_path := proxyReqPathResolver req;
     out_headers := proxyReqOptDecorator (reqHeaders req) req;
     out_body := body (msg req) |}.

(** No [proxyErrorHandler] is configured, so the middleware's default
    applies: a reset connection is answered 504 on the spot, any other
    error goes to [next(err)]. *)
Definition handleProxyErrors (code message : string) : handler_result :=
  if String.eqb code "ECONNRESET"
  then Done (ResRelay 504
               {[ "X-Timeout-Reason" := "express-http-proxy reset the request.";
                  "Content-Type" := "text/plain" ]} EmptyString)
  else Fail message.

(** No response decorator is configured either: status, headers and
    body of the backend are copied, but for [transfer-encoding]. *)
Definition relay (status : nat) (hdrs : gmap string string)
    (content : string) : response :=
  ResRelay status (delete "transfer-encoding" hdrs) content.

Definition proxyOptions (targetUrl : option string) : handler :=
  λ req,
    let out := build_outbound req in
    (match upstream targetUrl proxy_timeout out with
     | Replied status hdrs content => Done (relay status hdrs content)
     | Errored code message => handleProxyErrors code message
     end,
     [EvProxy targetUrl proxy_timeout out]).

(** *** [validateToken] *)

Definition jwt_secret : string := slot_or (JWT_SECRET env) "secret".

Definition validateToken : handler :=
  λ req,
    match headers (msg req) !! "authorization" with
    | None => (Done (json_unauthorized "Unauthorized"), [EvValidateToken])
    | Some auth =>
        if negb (truthy (JStr auth)) || negb (Str.startsWith auth "Bearer ")
        then (Done (json_unauthorized "Unauthorized"), [EvValidateToken])
        else
          match Str.split " " auth !! 1%nat with
          | None =>
              (* no second part: [jwt.verify(undefined, ..)] throws *)
              (Done (json_unauthorized "Invalid token"), [EvValidateToken])
          | Some token =>
              (match jwt_verify token jwt_secret with
               | Some decoded =>
                   match decoded with
                   | JUndefined | JNull =>
                       Done (json_unauthorized "Invalid token")
                   | _ =>
                       Next (set_user req
                               {| userId := get_field decoded "userId";
                                  role := get_field decoded "role" |})
                   end
               | None => Done (json_unauthorized "Invalid token")
               end,
               [EvValidateToken; EvVerify token jwt_secret])
          end
    end.

(** *** [/health] and [/] *)

Definition health : handler :=
  λ _, (Done (ResJson 200
                (JObj {[ "status" := JStr "healthy";
                         "service" := JStr "api-gateway";
                         "timestamp" := JStr now ]})), []).

Definition root : handler :=
  λ _, (Done (ResJson 200
                (JObj {[ "service" := JStr "API Gateway";
                         "version" := JStr "1.0.0";
                         "endpoints" :=
                           JObj {[ "health" := JStr "/health";
                                   "docs" := JStr "/api-docs";
                                   "user" := JStr "/v1/user";
                                   "worksheet" := JStr "/v1/worksheet";
                                   "payment" := JStr "/v1/payment";
                                   "notification" := JStr "/v1/notification" ]} ]})),
        []).

(** *** [/swagger.json] *)

Definition services : list string :=
  [ interpolate (USER_SERVICE_URL env) +:+ "/docs/swagger.json";
    interpolate (WORKSHEET_SERVICE_URL env) +:+ "/docs/swagger.json";
    interpolate (PAYMENT_SERVICE_URL env) +:+ "/docs/swagger.json";
    interpolate (NOTIFICATION_SERVICE_URL env) +:+ "/docs/swagger.json" ].

(** The body of [results.forEach]; the accumulator is
    [(mergedPaths, mergedComponents)]. *)
Definition merge_result
    (merged : gmap string jsval * gmap string jsval) (r : settled)
  : gmap string jsval * gmap string jsval :=
  match r with
  | Fulfilled data =>
      if truthy data
      then (object_assign merged.1 (js_or (get_field data "paths") (JObj ∅)),
            object_assign merged.2
              (js_or (get_field data "components") (JObj ∅)))
      else merged
  | Rejected => merged
  end.

Definition merge_results (results : list settled)
  : gmap string jsval * gmap string jsval :=
  foldl merge_result (∅, ∅) results.

Definition swagger_document (results : list settled) : jsval :=
  let merged := merge_results results in
  JObj {[ "openapi" := JStr "3.0.0";
          "info" := JObj {[ "title" := JStr "API Docs";
                            "version" := JStr "1.0.0" ]};
          "servers" := JArr [JObj {[ "url" := JStr "http://localhost:3000";
                                     "description" := JStr "Local" ]}];
          "components" :=
            JObj (<["securitySchemes" := bearerAuth_scheme]> merged.2);
          "security" := security_requirement;
          "paths" := JObj merged.1 ]}.

Definition swagger : handler :=
  λ _, (Done (ResJson 200 (swagger_document (axios_get <$> services))),
        EvFetch <$> services).

(** *** [/api-docs] *)

Definition api_docs : handler :=
  λ _, (Done (ResSwaggerUi
                (slot_or (API_GATEWAY_URL env) "http://localhost:3000"
                 +:+ "/swagger.json")), []).

(** *** The error handler *)

Definition error_handler (message : string) : response :=
  ResJson 500
    (JObj {[ "error" := JStr (slot_or (Some message) "Internal server error") ]}).

(** *** The stack, in registration order

    [express.json], [helmet] and [cors] come first in the file and are
    not part of this model: the stack below sees the requests they hand
    on.  A mount with two handlers is two layers on the same path. *)
Definition app : list layer :=
  [ get "/health" health;
    get "/" root;
    get "/swagger.json" swagger;
    use "/api-docs" api_docs;
    post "/v1/user/login" (proxyOptions (USER_SERVICE_URL env));
    post "/v1/user/register" (proxyOptions (USER_SERVICE_URL env));
    post "/v1/payment/packages/list" (proxyOptions (PAYMENT_SERVICE_URL env));
    use "/v1/user" validateToken;
    use "/v1/user" (proxyOptions (USER_SERVICE_URL env));
    use "/v1/worksheet" validateToken;
    use "/v1/worksheet" (proxyOptions (WORKSHEET_SERVICE_URL env));
    use "/v1/payment" validateToken;
    use "/v1/payment" (proxyOptions (PAYMENT_SERVICE_URL env));
    use "/v1/notification" (proxyOptions (NOTIFICATION_SERVICE_URL env)) ].

(** Express walks the stack: the first accepting layer handles the
    request; [next()] resumes the walk behind it; [next(err)] skips to
    the error handler, which is the last layer. *)
Fixpoint run (stack : list layer) (req : request) : response * list event :=
  match stack with
  | [] => (ResNotFound, [])
  | l :: stack' =>
      if accepts l req then
        match handle l req with
        | (Done res, evs) => (res, evs)
        | (Next req', evs) =>
            let '(res, evs') := run stack' req' in (res, evs ++ evs')
        | (Fail message, evs) => (error_handler message, evs)
        end
      else run stack' req
  end.

Definition gateway (m : message) : response * list event :=
  run app (incoming m).

End Gateway.

(** ** Startup

    The top level of the file builds the stack and listens.  Building a
    proxy handler fails on an empty host ([proxy(host, ..)] asserts it);
    nothing else is checked before [app.listen]. *)

Inductive boot :=
| Listening (port : jsval)
| Crashed (message : string).

Definition port (env : environment) : jsval :=
  js_or (of_slot (PORT env)) (JNum 3000).

Definition hosts_configured (env : environment) : bool :=
  truthy (of_slot (USER_SERVICE_URL env))
  && truthy (of_slot (PAYMENT_SERVICE_URL env))
  && truthy (of_slot (WORKSHEET_SERVICE_URL env))
  && truthy (of_slot (NOTIFICATION_SERVICE_URL env)).

Definition startup (env : environment) : boot :=
  if hosts_configured env then Listening (port env)
  else Crashed "Host should not be empty".

(** ** Words of the specification

    The path families and the public exceptions of the HTTP surface, and
    what it means for the credentials of a request to be unusable. *)

Definition protected_family (p : string) : bool :=
  mount_match "/v1/user" p || mount_match "/v1/worksheet" p
  || mount_match "/v1/payment" p.

Definition public_exception (m : http_method) (p : string) : bool :=
  method_eqb m POST
  && (route_match "/v1/user/login" p || route_match "/v1/user/register" p
      || route_match "/v1/payment/packages/list" p).

(** The backend a path family belongs to. *)
Definition family_host (env : environment) (p : string) : option string :=
  if mount_match "/v1/user" p then USER_SERVICE_URL env
  else if mount_match "/v1/worksheet" p then WORKSHEET_SERVICE_URL env
  else if mount_match "/v1/payment" p then PAYMENT_SERVICE_URL env
  else NOTIFICATION_SERVICE_URL env.

(** The backend of a public route: the three literal [POST] routes and
    the notification family. *)
Definition public_route (env : environment) (m : http_method) (p : string)
  : option (option string) :=
  if method_eqb m POST
     && (route_match "/v1/user/login" p || route_match "/v1/user/register" p)
  then Some (USER_SERVICE_URL env)
  else if method_eqb m POST && route_match "/v1/payment/packages/list" p
  then Some (PAYMENT_SERVICE_URL env)
  else if mount_match "/v1/notification" p
  then Some (NOTIFICATION_SERVICE_URL env)
  else None.


(** Forwarding as such: the proxy handler for [host], and the error
    handler behind it. *)
Definition forward (upstream : option string → Z → outbound → upstream_result)
    (host : option string) (req : request) : response * list event :=
  run [ {| accepts := λ _, true; handle := proxyOptions upstream host |} ] req.

(** Forwarding behind the token check: [validateToken], then the proxy
    handler for [host]. *)
Definition guarded (jwt_verify : string → string → option jsval)
    (upstream : option string → Z → outbound → upstream_result)
    (env : environment) (host : option string) (req : request)
  : response * list event :=
  run [ {| accepts := λ _, true; handle := validateToken jwt_verify env |};
        {| accepts := λ _, true; handle := proxyOptions upstream host |} ] req.


(** The header carries a token that [jwt_verify] accepts, with payload
    [decoded]. *)
Definition valid_token (jwt_verify : string → string → option jsval)
    (env : environment) (h : gmap string string) (decoded : jsval) : Prop :=
  ∃ auth token,
    h !! "authorization" = Some auth
    ∧ Str.startsWith auth "Bearer " = true
    ∧ Str.split " " auth !! 1%nat = Some token
    ∧ jwt_verify token (jwt_secret env) = Some decoded
    ∧ decoded ≠ JUndefined ∧ decoded ≠ JNull.


(** What a settled fetch contributes to the merged [field]: nothing
    unless it is fulfilled with a document. *)
Definition contribution (field : string) (r : settled) : gmap string jsval :=
  match r with
  | Fulfilled data =>
      if truthy data then own_props (js_or (get_field data field) (JObj ∅))
      else ∅
  | Rejected => ∅
  end.

(** ** A sample deployment, for the examples *)

Module Sample.

Definition env : environment :=
  {| PORT := None;
     JWT_SECRET := Some "s3cr3t";
     API_GATEWAY_URL := None;
     USER_SERVICE_URL := Some "http://user:3001";
     WORKSHEET_SERVICE_URL := Some "http://worksheet:3002";
     PAYMENT_SERVICE_URL := Some "http://payment:3003";
     NOTIFICATION_SERVICE_URL := Some "http://notification:3004" |}.

(** The same deployment with the secret left unset. *)
Definition env_no_secret : environment :=
  {| PORT := None;
     JWT_SECRET := None;
     API_GATEWAY_URL := None;
     USER_SERVICE_URL := Some "http://user:3001";
     WORKSHEET_SERVICE_URL := Some "http://worksheet:3002";
     PAYMENT_SERVICE_URL := Some "http://payment:3003";
     NOTIFICATION_SERVICE_URL := Some "http://notification:3004" |}.

Definition admin_claims : jsval :=
  JObj {[ "userId" := JStr "u1"; "role" := JStr "admin" ]}.

Definition plain_claims : jsval := JObj {[ "userId" := JStr "u2" ]}.

(** Three tokens: [admin.s3cr3t] and [plain.s3cr3t] are signed with the
    configured secret, [admin.secret] with the string [secret]. *)
Definition jwt_verify (token secret : string) : option jsval :=
  if String.eqb token "admin.s3cr3t" && String.eqb secret "s3cr3t"
  then Some admin_claims
  else if String.eqb token "plain.s3cr3t" && String.eqb secret "s3cr3t"
  then Some plain_claims
  else if String.eqb token "admin.secret" && String.eqb secret "secret"
  then Some admin_claims
  else None.

Definition backend_headers : gmap string string :=
  {[ "content-type" := "application/json"; "x-request-id" := "r-17";
     "transfer-encoding" := "chunked" ]}.

(** The user and payment backends answer; the worksheet backend
    refuses connections; the notification backend never answers. *)
Definition upstream (host : option string) (timeout : Z) (out : outbound)
  : upstream_result :=
  match host with
  | Some "http://worksheet:3002" =>
      Errored "ECONNREFUSED" "connect ECONNREFUSED 10.0.0.2:3002"
  | Some "http://notification:3004" => Errored "ECONNRESET" "socket hang up"
  | _ => Replied 201 backend_headers "ok:true"
  end.

Definition user_doc : jsval :=
  JObj {[ "paths" := JObj {[ "/api/user/me" := JStr "user-me";
                             "/api/shared" := JStr "from-user" ]};
          "components" :=
            JObj {[ "schemas" := JStr "user-schemas";
                    "securitySchemes" := JStr "user-schemes" ]} ]}.

Definition payment_doc : jsval :=
  JObj {[ "paths" := JObj {[ "/api/payment/pay" := JStr "pay";
                             "/api/shared" := JStr "from-payment" ]};
          "components" := JObj {[ "schemas" := JStr "payment-schemas" ]} ]}.

Definition axios_get (url : string) : settled :=
  match url with
  | "http://user:3001/docs/swagger.json" => Fulfilled user_doc
  | "http://payment:3003/docs/swagger.json" => Fulfilled payment_doc
  | _ => Rejected
  end.

Definition now : string := "2024-05-01T10:00:00.000Z".

Definition gateway : message → response * list event :=
  gateway jwt_verify upstream axios_get env now.

Definition req (m : http_method) (url : string) (h : gmap string string)
  : message :=
  {| method := m; originalUrl := url; headers := h; body := EmptyString |}.

End Sample.

(** ** Further notions

    What the properties beyond the claims speak of. *)

(** The part of a string before the first [c]; all of it when [c] does
    not occur. *)
Fixpoint before_char (c : ascii) (s : string) : string :=
  match s with
  | EmptyString => EmptyString
  | String a s' =>
      if Ascii.eqb a c then EmptyString else String a (before_char c s')
  end.

Fixpoint has_char (c : ascii) (s : string) : bool :=
  match s with
  | EmptyString => false
  | String a s' => Ascii.eqb a c || has_char c s'
  end.

(** [l.join(sep)] for a one-character separator. *)
Fixpoint join (sep : ascii) (l : list string) : string :=
  match l with
  | [] => EmptyString
  | [s] => s
  | s :: l' => s +:+ String sep (join sep l')
  end.

(** The [origin] option handed to [cors]:
    [CORS_ORIGINS ? CORS_ORIGINS.split(',') : [..]]. *)
Definition default_origins : list string :=
  ["http://localhost:4005"; "http://localhost:3001"].

Definition cors_origin (CORS_ORIGINS : option string) : list string :=
  match CORS_ORIGINS with
  | Some s => if truthy (JStr s) then Str.split "," s else default_origins
  | None => default_origins
  end.

(** The paths the root endpoint advertises, as its answer lists them. *)
Definition advertised (body : jsval) (p : string) : Prop :=
  ∃ name, get_field (get_field body "endpoints") name = JStr p.

(** * Properties *)

(** ** Sanity checks of the string and routing primitives *)

Example split_bearer :
  Str.split " " "Bearer abc.def ghi" = ["Bearer"; "abc.def"; "ghi"].
Proof. reflexivity. Qed.

Example split_bearer_empty : Str.split " " "Bearer " = ["Bearer"; EmptyString].
Proof. reflexivity. Qed.

Example replace_leading_once :
  Str.replace_leading "/v1" "/api" "/v1/user/v1?next=/v1"
  = "/api/user/v1?next=/v1".
Proof. reflexivity. Qed.

Example route_match_login : route_match "/v1/user/login" "/v1/user/login" = true.
Proof. reflexivity. Qed.

Example route_match_login_slash :
  route_match "/v1/user/login" "/V1/User/Login/" = true.
Proof. reflexivity. Qed.

Example route_match_login_longer :
  route_match "/v1/user/login" "/v1/user/login/x" = false.
Proof. reflexivity. Qed.

Example route_match_root : route_match "/" "/" = true ∧ route_match "/" "//" = false.
Proof. split; reflexivity. Qed.

Example mount_match_segment :
  mount_match "/v1/user" "/v1/user/42/profile" = true
  ∧ mount_match "/v1/user" "/v1/user" = true
  ∧ mount_match "/v1/user" "/v1/username" = false.
Proof. repeat split; reflexivity. Qed.

(** ** Path matching *)

Lemma lower_eqb_trans a b c :
  Ascii.eqb (Str.lower a) (Str.lower c) = true →
  Ascii.eqb (Str.lower b) (Str.lower c)
  = Ascii.eqb (Str.lower a) (Str.lower b).
Proof.
  intros ->%Ascii.eqb_eq. rewrite (Ascii.eqb_sym (Str.lower c)). reflexivity.
Qed.

Lemma strip_prefix_ci_diverges p q s r :
  Str.diverges p q = true →
  Str.strip_prefix_ci p s = Some r →
  Str.strip_prefix_ci q s = None.
Proof.
  revert q s. induction p as [|a p IH]; intros [|b q] [|c s]; simpl;
    try discriminate; try reflexivity.
  destruct (Ascii.eqb (Str.lower a) (Str.lower c)) eqn:Hac; [|discriminate].
  rewrite (lower_eqb_trans _ _ _ Hac).
  destruct (Ascii.eqb (Str.lower a) (Str.lower b)); [apply IH | reflexivity].
Qed.

Lemma mount_match_strip pattern p :
  mount_match pattern p = true →
  ∃ rest, Str.strip_prefix_ci (Str.drop_trailing_slash pattern) p = Some rest.
Proof.
  unfold mount_match.
  destruct (Str.strip_prefix_ci _ p) as [rest|]; [eauto | discriminate].
Qed.

Lemma route_match_strip pattern p :
  route_match pattern p = true →
  ∃ rest, Str.strip_prefix_ci (Str.drop_trailing_slash pattern) p = Some rest.
Proof.
  unfold route_match.
  destruct (Str.strip_prefix_ci _ p) as [rest|]; [eauto | discriminate].
Qed.

Lemma strip_refutes_route pattern q p rest :
  Str.strip_prefix_ci pattern p = Some rest →
  Str.diverges pattern (Str.drop_trailing_slash q) = true →
  route_match q p = false.
Proof.
  intros Hp Hd. unfold route_match.
  by rewrite (strip_prefix_ci_diverges _ _ _ _ Hd Hp).
Qed.

Lemma strip_refutes_mount pattern q p rest :
  Str.strip_prefix_ci pattern p = Some rest →
  Str.diverges pattern (Str.drop_trailing_slash q) = true →
  mount_match q p = false.
Proof.
  intros Hp Hd. unfold mount_match.
  by rewrite (strip_prefix_ci_diverges _ _ _ _ Hd Hp).
Qed.

(** A path that starts with a pattern of two characters or more is not
    the root. *)
Lemma strip_refutes_root pattern p rest :
  Str.strip_prefix_ci pattern p = Some rest →
  (2 ≤ String.length pattern)%nat →
  route_match "/" p = false.
Proof.
  destruct pattern as [|a [|b pattern]]; simpl; try lia.
  destruct p as [|c [|d p]]; simpl; try discriminate.
  - destruct (Ascii.eqb _ _); discriminate.
  - intros _ _. unfold route_match. simpl.
    destruct (Ascii.eqb c "/"); reflexivity.
Qed.

(** ** Walking the stack *)

Lemma run_skip l stack req :
  accepts l req = false → run (l :: stack) req = run stack req.
Proof. intros H. simpl. by rewrite H. Qed.

Lemma run_done l stack req res evs :
  accepts l req = true → handle l req = (Done res, evs) →
  run (l :: stack) req = (res, evs).
Proof. intros H1 H2. simpl. by rewrite H1, H2. Qed.

Lemma run_next l stack req req' evs :
  accepts l req = true → handle l req = (Next req', evs) →
  run (l :: stack) req = ((run stack req').1, evs ++ (run stack req').2).
Proof.
  intros H1 H2. simpl. rewrite H1, H2. by destruct (run stack req').
Qed.

Lemma run_fail l stack req message evs :
  accepts l req = true → handle l req = (Fail message, evs) →
  run (l :: stack) req = (error_handler message, evs).
Proof. intros H1 H2. simpl. by rewrite H1, H2. Qed.

Lemma path_set_user req u : path (set_user req u) = path req.
Proof. reflexivity. Qed.

(** The three public routes, one by one. *)
Lemma public_exception_false m p :
  public_exception m p = false →
  method_eqb m POST && route_match "/v1/user/login" p = false
  ∧ method_eqb m POST && route_match "/v1/user/register" p = false
  ∧ method_eqb m POST && route_match "/v1/payment/packages/list" p = false.
Proof.
  unfold public_exception. destruct (method_eqb m POST); simpl; [|done].
  intros [[-> ->]%orb_false_elim ->]%orb_false_elim. done.
Qed.

(** The layers in front of the [/v1] ones refuse a path that starts
    with a pattern parting ways with theirs. *)
Lemma front_layers_refuse pattern p rest :
  Str.strip_prefix_ci pattern p = Some rest →
  Str.diverges pattern "/health" = true →
  Str.diverges pattern "/swagger.json" = true →
  Str.diverges pattern "/api-docs" = true →
  (2 ≤ String.length pattern)%nat →
  route_match "/health" p = false ∧ route_match "/" p = false
  ∧ route_match "/swagger.json" p = false ∧ mount_match "/api-docs" p = false.
Proof.
  intros Hp Hh Hs Ha Hlen. repeat split.
  - by eapply strip_refutes_route.
  - by eapply strip_refutes_root.
  - by eapply strip_refutes_route.
  - by eapply strip_refutes_mount.
Qed.

(** ** Token validation *)

Section Validation.

Variable jwt_verify : string → string → option jsval.
Variable env : environment.



End Validation.

(** ** The protected families *)

Section Routing.

Variable jwt_verify : string → string → option jsval.
Variable upstream : option string → Z → outbound → upstream_result.
Variable axios_get : string → settled.
Variable env : environment.
Variable now : string.

#[local] Abbreviation app := (app jwt_verify upstream axios_get env now).
#[local] Abbreviation gateway := (gateway jwt_verify upstream axios_get env now).

Lemma validateToken_cases req :
  match validateToken jwt_verify env req with
  | (Done res, evs) =>
      proxy_calls evs = [] ∧ ∃ message, res = json_unauthorized message
  | (Next req', evs) => proxy_calls evs = [] ∧ ∃ u, req' = set_user req u
  | (Fail _, _) => False
  end.
Proof.
  unfold validateToken.
  destruct (headers (msg req) !! "authorization") as [auth|]; [|by eauto].
  destruct (_ || _); [by eauto|].
  destruct (Str.split " " auth !! 1%nat) as [token|]; [|by eauto].
  destruct (jwt_verify _ _) as [decoded|]; [|by eauto].
  destruct decoded; by eauto.
Qed.

Lemma forward_eq host req :
  forward upstream host req
  = (match upstream host proxy_timeout (build_outbound req) with
     | Replied status hdrs content => relay status hdrs content
     | Errored code message =>
         match handleProxyErrors code message with
         | Done res => res
         | Fail message' => error_handler message'
         | Next _ => ResNotFound
         end
     end,
     [EvProxy host proxy_timeout (build_outbound req)]).
Proof.
  unfold forward, proxyOptions. cbn [run accepts handle].
  destruct (upstream _ _ _) as [status hdrs content|code message]; [done|].
  unfold handleProxyErrors. by destruct (String.eqb code _).
Qed.

Lemma run_proxy l stack host req :
  accepts l req = true → handle l = proxyOptions upstream host →
  run (l :: stack) req = forward upstream host req.
Proof.
  intros Hacc Hh. rewrite forward_eq. cbn [run]. rewrite Hacc, Hh.
  unfold proxyOptions.
  destruct (upstream _ _ _) as [status hdrs content|code message]; [done|].
  unfold handleProxyErrors. by destruct (String.eqb code _).
Qed.

Lemma run_guarded pattern stack host req :
  mount_match pattern (path req) = true →
  run (use pattern (validateToken jwt_verify env)
       :: use pattern (proxyOptions upstream host) :: stack) req
  = guarded jwt_verify upstream env host req.
Proof.
  intros Hm. unfold guarded. cbn [run accepts handle use]. rewrite Hm.
  pose proof (validateToken_cases req) as Hv.
  destruct (validateToken jwt_verify env req) as [[res|req'|message] evs];
    [done| |done].
  destruct Hv as [_ [u ->]]. rewrite path_set_user, Hm.
  unfold proxyOptions.
  destruct (upstream _ _ _) as [status hdrs content|code message]; [done|].
  unfold handleProxyErrors. by destruct (String.eqb code _).
Qed.

Lemma guarded_eq host req :
  guarded jwt_verify upstream env host req
  = match validateToken jwt_verify env req with
    | (Done res, evs) => (res, evs)
    | (Next req', evs) =>
        ((forward upstream host req').1, evs ++ (forward upstream host req').2)
    | (Fail message, evs) => (error_handler message, evs)
    end.
Proof.
  unfold guarded.
  destruct (validateToken jwt_verify env req) as [[res|req'|message] evs] eqn:Hv.
  - by apply run_done.
  - by apply run_next.
  - by apply run_fail.
Qed.

#[local] Ltac refuse :=
  rewrite run_skip by
    (cbn [accepts get post use];
     match goal with
     | H : ?x = false |- ?y = false => constr_eq x y; exact H
     | H : ?x = false |- _ && ?y = false =>
         constr_eq x y; rewrite H; apply andb_false_r
     end).

(** On a path of a protected family that is no public exception, the
    walk comes down to the guarded forward of that family. *)
Lemma dispatch_protected req :
  protected_family (path req) = true →
  public_exception (method (msg req)) (path req) = false →
  run app req = guarded jwt_verify upstream env (family_host env (path req)) req.
Proof.
  intros Hfam (E1 & E2 & E3)%public_exception_false. unfold app, family_host.
  apply orb_true_iff in Hfam as [[Hu|Hw]%orb_true_iff|Hp].
  - destruct (mount_match_strip _ _ Hu) as [rest Hs].
    destruct (front_layers_refuse _ _ _ Hs) as (F1 & F2 & F3 & F4);
      [reflexivity..|simpl; lia|].
    do 7 refuse. rewrite Hu. apply run_guarded, Hu.
  - destruct (mount_match_strip _ _ Hw) as [rest Hs].
    destruct (front_layers_refuse _ _ _ Hs) as (F1 & F2 & F3 & F4);
      [reflexivity..|simpl; lia|].
    assert (mount_match "/v1/user" (path req) = false) as Hu
      by (by eapply strip_refutes_mount).
    do 9 refuse. rewrite Hu, Hw. apply run_guarded, Hw.
  - destruct (mount_match_strip _ _ Hp) as [rest Hs].
    destruct (front_layers_refuse _ _ _ Hs) as (F1 & F2 & F3 & F4);
      [reflexivity..|simpl; lia|].
    assert (mount_match "/v1/user" (path req) = false) as Hu
      by (by eapply strip_refutes_mount).
    assert (mount_match "/v1/worksheet" (path req) = false) as Hw
      by (by eapply strip_refutes_mount).
    do 11 refuse. rewrite Hu, Hw, Hp. apply run_guarded, Hp.
Qed.

(** On a public route the walk comes down to a plain forward. *)
Lemma dispatch_public req host :
  public_route env (method (msg req)) (path req) = Some host →
  run app req = forward upstream host req.
Proof.
  unfold public_route, app.
  destruct (method_eqb (method (msg req)) POST) eqn:Hpost; cbn [andb].
  - destruct (route_match "/v1/user/login" (path req)) eqn:Hl; cbn [orb].
    { intros [= <-]. destruct (route_match_strip _ _ Hl) as [rest Hs].
      destruct (front_layers_refuse _ _ _ Hs) as (F1 & F2 & F3 & F4);
        [reflexivity..|simpl; lia|].
      do 4 refuse. apply run_proxy; [|done].
      cbn [accepts post]. by rewrite Hpost, Hl. }
    destruct (route_match "/v1/user/register" (path req)) eqn:Hr.
    { intros [= <-]. destruct (route_match_strip _ _ Hr) as [rest Hs].
      destruct (front_layers_refuse _ _ _ Hs) as (F1 & F2 & F3 & F4);
        [reflexivity..|simpl; lia|].
      do 5 refuse. apply run_proxy; [|done].
      cbn [accepts post]. by rewrite Hpost, Hr. }
    destruct (route_match "/v1/payment/packages/list" (path req)) eqn:Hk.
    { intros [= <-]. destruct (route_match_strip _ _ Hk) as [rest Hs].
      destruct (front_layers_refuse _ _ _ Hs) as (F1 & F2 & F3 & F4);
        [reflexivity..|simpl; lia|].
      do 6 refuse. apply run_proxy; [|done].
      cbn [accepts post]. by rewrite Hpost, Hk. }
    destruct (mount_match "/v1/notification" (path req)) eqn:Hn; [|done].
    intros [= <-]. destruct (mount_match_strip _ _ Hn) as [rest Hs].
    destruct (front_layers_refuse _ _ _ Hs) as (F1 & F2 & F3 & F4);
      [reflexivity..|simpl; lia|].
    assert (mount_match "/v1/user" (path req) = false) as Hu
      by (by eapply strip_refutes_mount).
    assert (mount_match "/v1/worksheet" (path req) = false) as Hw
      by (by eapply strip_refutes_mount).
    assert (mount_match "/v1/payment" (path req) = false) as Hp
      by (by eapply strip_refutes_mount).
    do 13 refuse. by apply run_proxy.
  - destruct (mount_match "/v1/notification" (path req)) eqn:Hn; [|done].
    intros [= <-]. destruct (mount_match_strip _ _ Hn) as [rest Hs].
    destruct (front_layers_refuse _ _ _ Hs) as (F1 & F2 & F3 & F4);
      [reflexivity..|simpl; lia|].
    assert (mount_match "/v1/user" (path req) = false) as Hu
      by (by eapply strip_refutes_mount).
    assert (mount_match "/v1/worksheet" (path req) = false) as Hw
      by (by eapply strip_refutes_mount).
    assert (mount_match "/v1/payment" (path req) = false) as Hp
      by (by eapply strip_refutes_mount).
    do 4 refuse.
    do 3 (rewrite run_skip by (cbn [accepts post]; by rewrite Hpost)).
    do 6 refuse. by apply run_proxy.
Qed.

(** Everywhere else nothing is forwarded and no token is looked at. *)
Lemma dispatch_other req :
  public_route env (method (msg req)) (path req) = None →
  protected_family (path req) = false →
  proxy_calls (run app req).2 = []
  ∧ existsb is_validation (run app req).2 = false.
Proof.
  unfold public_route, protected_family, app.
  intros Hpub [[Hu Hw]%orb_false_elim Hp]%orb_false_elim.
  assert (method_eqb (method (msg req)) POST
          && route_match "/v1/user/login" (path req) = false
          ∧ method_eqb (method (msg req)) POST
            && route_match "/v1/user/register" (path req) = false
          ∧ method_eqb (method (msg req)) POST
            && route_match "/v1/payment/packages/list" (path req) = false
          ∧ mount_match "/v1/notification" (path req) = false)
    as (E1 & E2 & E3 & Hn).
  { destruct (method_eqb _ POST); cbn [andb] in *.
    - destruct (route_match "/v1/user/login" (path req)); [done|].
      destruct (route_match "/v1/user/register" (path req)); [done|].
      destruct (route_match "/v1/payment/packages/list" (path req)); [done|].
      by destruct (mount_match "/v1/notification" (path req)).
    - by destruct (mount_match "/v1/notification" (path req)). }
  clear Hpub.
  destruct (accepts (get "/health" (health now)) req) eqn:A1.
  { by rewrite (run_done _ _ _ _ _ A1 eq_refl). }
  rewrite run_skip by done.
  destruct (accepts (get "/" root) req) eqn:A2.
  { by rewrite (run_done _ _ _ _ _ A2 eq_refl). }
  rewrite run_skip by done.
  destruct (accepts (get "/swagger.json" (swagger axios_get env)) req) eqn:A3.
  { by rewrite (run_done _ _ _ _ _ A3 eq_refl). }
  rewrite run_skip by done.
  destruct (accepts (use "/api-docs" (api_docs env)) req) eqn:A4.
  { by rewrite (run_done _ _ _ _ _ A4 eq_refl). }
  rewrite run_skip by done.
  do 10 refuse. done.
Qed.

(** Every request is answered locally, or by one forward of the message,
    possibly behind a token check that makes no call of its own. *)
Lemma gateway_outcome m :
  proxy_calls (gateway m).2 = []
  ∨ ∃ host req pre,
      msg req = m ∧ proxy_calls pre = []
      ∧ gateway m = ((forward upstream host req).1,
                     pre ++ (forward upstream host req).2).
Proof.
  unfold gateway. set (req := incoming m).
  destruct (public_route env (method (msg req)) (path req)) as [host|] eqn:Hpub.
  { right. exists host, req, []. rewrite (dispatch_public _ _ Hpub).
    by destruct (forward upstream host req). }
  destruct (protected_family (path req)) eqn:Hfam.
  2: { left. by apply dispatch_other. }
  assert (public_exception (method (msg req)) (path req) = false) as Hex.
  { revert Hpub. unfold public_route, public_exception.
    destruct (method_eqb _ POST); cbn [andb]; [|done].
    destruct (route_match "/v1/user/login" _); [done|].
    destruct (route_match "/v1/user/register" _); [done|].
    by destruct (route_match "/v1/payment/packages/list" _). }
  rewrite (dispatch_protected _ Hfam Hex), guarded_eq.
  pose proof (validateToken_cases req) as Hv.
  destruct (validateToken jwt_verify env req) as [[res|req'|message] evs];
    [left; apply Hv| |done].
  destruct Hv as [Hevs [u ->]]. right.
  by exists (family_host env (path req)), (set_user req u), evs.
Qed.


End Routing.


(** Every path below [/v1/notification/] is in the notification family,
    whatever follows and whatever the query string. *)
Lemma notification_family rest m h b :
  mount_match "/v1/notification"
    (path (incoming {| method := m;
                       originalUrl := "/v1/notification/" +:+ rest;
                       headers := h; body := b |})) = true.
Proof. reflexivity. Qed.

(** ** The claims *)





(** An outbound call of the gateway is the only one of its request; it
    carries the message as [build_outbound] shapes it, and its outcome
    is the response. *)
Lemma gateway_call jwt_verify upstream axios_get env now m host timeout out :
  (host, timeout, out) ∈ proxy_calls (gateway jwt_verify upstream axios_get env now m).2 →
  timeout = proxy_timeout
  ∧ proxy_calls (gateway jwt_verify upstream axios_get env now m).2
    = [(host, timeout, out)]
  ∧ ∃ req, msg req = m ∧ out = build_outbound req
           ∧ (gateway jwt_verify upstream axios_get env now m).1
             = (forward upstream host req).1.
Proof.
  destruct (gateway_outcome jwt_verify upstream axios_get env now m)
    as [Hnone|(host' & req & pre & Hmsg & Hpre & ->)].
  { rewrite Hnone. by intros ?%elem_of_nil. }
  rewrite forward_eq. cbn [fst snd]. unfold proxy_calls at 1 2.
  rewrite omap_app. fold (proxy_calls pre). rewrite Hpre. cbn [omap app].
  change (omap _ [EvProxy host' proxy_timeout (build_outbound req)])
    with [(host', proxy_timeout, build_outbound req)].
  intros [= -> -> ->]%list_elem_of_singleton.
  repeat split. exists req. by rewrite forward_eq.
Qed.

Lemma replace_leading_prefix p r rest :
  Str.replace_leading p r (p +:+ rest) = r +:+ rest.
Proof.
  unfold Str.replace_leading.
  assert (Str.strip_prefix p (p +:+ rest) = Some rest) as ->; [|done].
  induction p as [|a p IH]; [done|].
  change (String a p +:+ rest) with (String a (p +:+ rest)). simpl.
  by rewrite Ascii.eqb_refl.
Qed.

Lemma replace_leading_other p r s :
  Str.startsWith s p = false → Str.replace_leading p r s = s.
Proof.
  unfold Str.startsWith, Str.replace_leading.
  by destruct (Str.strip_prefix p s).
Qed.

(** C4. The path of every outbound call is the original URL with its
    leading [/v1] replaced by [/api]: what follows the prefix, query
    string included, is kept character by character, so a [/v1] further
    on is not touched; a URL that does not start with [/v1] is sent as it
    is. *)
Theorem outbound_path_rewrites_leading_prefix
    jwt_verify upstream axios_get env now (m : message) host timeout out :
  (host, timeout, out)
    ∈ proxy_calls (gateway jwt_verify upstream axios_get env now m).2 →
  (∀ rest, originalUrl m = "/v1" +:+ rest → out_path out = "/api" +:+ rest)
  ∧ (Str.startsWith (originalUrl m) "/v1" = false →
     out_path out = originalUrl m).
Proof.
  intros (_ & _ & req & <- & -> & _)%gateway_call.
  cbn [build_outbound out_path]. unfold proxyReqPathResolver. split.
  - intros rest ->. apply replace_leading_prefix.
  - apply replace_leading_other.
Qed.

Lemma outbound_path_rewrites_leading_prefix_witness :
  let m := Sample.req GET "/v1/user/v1/items?next=/v1/x&n=2"
             {[ "authorization" := "Bearer admin.s3cr3t" ]} in
  let out := build_outbound
               (set_user (incoming m)
                  {| userId := JStr "u1"; role := JStr "admin" |}) in
  (Some "http://user:3001", proxy_timeout, out)
    ∈ proxy_calls (Sample.gateway m).2
  ∧ out_path out = "/api/user/v1/items?next=/v1/x&n=2".
Proof.
  intros m out.
  assert ((Some "http://user:3001", proxy_timeout, out)
            ∈ proxy_calls (Sample.gateway m).2) as Hcall.
  { assert (proxy_calls (Sample.gateway m).2
            = [(Some "http://user:3001", proxy_timeout, out)]) as ->
      by (vm_compute; reflexivity).
    apply list_elem_of_here. }
  split; [exact Hcall|].
  exact (proj1 (outbound_path_rewrites_leading_prefix _ _ _ _ _ m _ _ _ Hcall)
           "/user/v1/items?next=/v1/x&n=2" eq_refl).
Defined.






(** ** Outbound headers *)


Lemma decorator_user_id opts req u :
  user req = Some u →
  proxyReqOptDecorator opts req !! "x-user-id" = Some (userId u).
Proof.
  intros Hu. unfold proxyReqOptDecorator. rewrite Hu.
  destruct (truthy (role u)), (truthy (of_slot _));
    rewrite ?(lookup_insert_ne _ "authorization"),
            ?(lookup_insert_ne _ "x-user-role") by done;
    apply lookup_insert_eq.
Qed.










(** C2, as the code has it.  With the secret unset (or empty) the
    gateway still starts, provided the four backend hosts are set, and
    every verification uses the default secret [secret]. *)
Theorem unset_secret_defaults jwt_verify env (req : request) :
  JWT_SECRET env = None ∨ JWT_SECRET env = Some EmptyString →
  hosts_configured env = true →
  startup env = Listening (port env)
  ∧ jwt_secret env = "secret"
  ∧ ∀ token secret,
      EvVerify token secret ∈ (validateToken jwt_verify env req).2 →
      secret = "secret".
Proof.
  intros Hunset Hhosts. unfold startup. rewrite Hhosts. split; [done|].
  assert (jwt_secret env = "secret") as Hsecret.
  { unfold jwt_secret. by destruct Hunset as [-> | ->]. }
  split; [done|]. intros token secret. unfold validateToken.
  destruct (headers (msg req) !! "authorization") as [auth|].
  2: { by intros [=]%list_elem_of_singleton. }
  destruct (_ || _).
  { by intros [=]%list_elem_of_singleton. }
  destruct (Str.split " " auth !! 1%nat) as [t|];
    [|by intros [=]%list_elem_of_singleton].
  cbn [snd]. rewrite Hsecret.
  intros [[=]|[= _ <-]%list_elem_of_singleton]%elem_of_cons. done.
Qed.

Lemma unset_secret_defaults_witness :
  let req := incoming (Sample.req GET "/v1/user/me"
                         {[ "authorization" := "Bearer admin.secret" ]}) in
  startup Sample.env_no_secret = Listening (JNum 3000)
  ∧ jwt_secret Sample.env_no_secret = "secret"
  ∧ ∀ token secret,
      EvVerify token secret
        ∈ (validateToken Sample.jwt_verify Sample.env_no_secret req).2 →
      secret = "secret".
Proof.
  intros req.
  apply (unset_secret_defaults Sample.jwt_verify Sample.env_no_secret req).
  - left. reflexivity.
  - reflexivity.
Defined.

(** C2 as stated fails: with the secret unset the gateway listens, and
    a token signed with the string [secret] is verified against that
    default and let through to the backend. *)
Lemma unset_secret_is_not_fatal :
  let m := Sample.req GET "/v1/user/me"
             {[ "authorization" := "Bearer admin.secret" ]} in
  let out := build_outbound
               (set_user (incoming m)
                  {| userId := JStr "u1"; role := JStr "admin" |}) in
  JWT_SECRET Sample.env_no_secret = None
  ∧ startup Sample.env_no_secret = Listening (JNum 3000)
  ∧ (gateway Sample.jwt_verify Sample.upstream Sample.axios_get
       Sample.env_no_secret Sample.now m).2
    = [EvValidateToken; EvVerify "admin.secret" "secret";
       EvProxy (Some "http://user:3001") proxy_timeout out]
  ∧ status_of (gateway Sample.jwt_verify Sample.upstream Sample.axios_get
                 Sample.env_no_secret Sample.now m).1 = 201%nat.
Proof.
  intros m out.
  split; [reflexivity|]. split; [reflexivity|].
  split; vm_compute; reflexivity.
Qed.

(** ** Merging the documentation *)

Lemma merge_result_paths merged r :
  (merge_result merged r).1 = contribution "paths" r ∪ merged.1.
Proof.
  destruct r as [data|]; cbn [merge_result contribution].
  - destruct (truthy data); [done|]. by rewrite (left_id_L ∅ (∪)).
  - by rewrite (left_id_L ∅ (∪)).
Qed.

Lemma merge_result_components merged r :
  (merge_result merged r).2 = contribution "components" r ∪ merged.2.
Proof.
  destruct r as [data|]; cbn [merge_result contribution].
  - destruct (truthy data); [done|]. by rewrite (left_id_L ∅ (∪)).
  - by rewrite (left_id_L ∅ (∪)).
Qed.






Lemma swagger_document_paths results :
  get_field (swagger_document results) "paths"
  = JObj (merge_results results).1.
Proof.
  unfold swagger_document, get_field.
  by rewrite !lookup_insert_ne, lookup_singleton_eq by done.
Qed.

Lemma swagger_document_components results :
  get_field (swagger_document results) "components"
  = JObj (<["securitySchemes" := bearerAuth_scheme]> (merge_results results).2).
Proof.
  unfold swagger_document, get_field.
  by rewrite !lookup_insert_ne, lookup_insert_eq by done.
Qed.






(** ** Scenarios on the sample deployment *)

(** The same payload signed with another secret is turned away. *)
Example token_signed_with_other_secret :
  Sample.gateway
    (Sample.req GET "/v1/user/me" {[ "authorization" := "Bearer admin.secret" ]})
  = (json_unauthorized "Invalid token",
     [EvValidateToken; EvVerify "admin.secret" "s3cr3t"]).
Proof. vm_compute. reflexivity. Qed.

(** A scheme other than [Bearer] does not reach [jwt.verify]. *)
Example basic_scheme_is_unauthorized :
  Sample.gateway
    (Sample.req DELETE "/v1/payment/cards/3"
       {[ "authorization" := "Basic dXNlcjpwYXNz" ]})
  = (json_unauthorized "Unauthorized", [EvValidateToken]).
Proof. vm_compute. reflexivity. Qed.

(** [GET /v1/user/login] is not the public [POST] route. *)
Example login_is_public_for_post_only :
  (Sample.gateway (Sample.req GET "/v1/user/login" ∅)).1
  = json_unauthorized "Unauthorized"
  ∧ status_of (Sample.gateway (Sample.req POST "/v1/user/login" ∅)).1 = 201%nat.
Proof. split; vm_compute; reflexivity. Qed.

Example health_reports_the_service :
  Sample.gateway (Sample.req GET "/health" ∅)
  = (ResJson 200
       (JObj {[ "status" := JStr "healthy"; "service" := JStr "api-gateway";
                "timestamp" := JStr Sample.now ]}), []).
Proof. vm_compute. reflexivity. Qed.

Example unknown_route_is_404 :
  Sample.gateway (Sample.req GET "/v2/user/me" ∅) = (ResNotFound, []).
Proof. vm_compute. reflexivity. Qed.

(** Routing is not case sensitive, the rewrite of the prefix is. *)
Example upper_case_prefix_is_forwarded_as_is :
  proxy_calls (Sample.gateway (Sample.req GET "/V1/notification/inbox" ∅)).2
  = [(Some "http://notification:3004", proxy_timeout,
      build_outbound (incoming (Sample.req GET "/V1/notification/inbox" ∅)))]
  ∧ out_path (build_outbound
                (incoming (Sample.req GET "/V1/notification/inbox" ∅)))
    = "/V1/notification/inbox".
Proof. split; vm_compute; reflexivity. Qed.

(** With two backends down the document holds what the other two
    publish; on the shared path the later backend wins. *)
Example documentation_with_two_backends_down :
  let doc := swagger_document (Sample.axios_get <$> services Sample.env) in
  own_props (get_field doc "paths") !! "/api/user/me" = Some (JStr "user-me")
  ∧ own_props (get_field doc "paths") !! "/api/payment/pay" = Some (JStr "pay")
  ∧ own_props (get_field doc "paths") !! "/api/shared"
    = Some (JStr "from-payment")
  ∧ own_props (get_field doc "components") !! "schemas"
    = Some (JStr "payment-schemas")
  ∧ own_props (get_field doc "components") !! "securitySchemes"
    = Some bearerAuth_scheme.
Proof. repeat split; vm_compute; reflexivity. Qed.

(** * Further properties of the gateway *)

(** ** Strings *)

Lemma strip_prefix_Some p s rest :
  Str.strip_prefix p s = Some rest → s = p +:+ rest.
Proof.
  revert s. induction p as [|a p IH]; intros [|b s]; simpl; try discriminate.
  - intros [= <-]. reflexivity.
  - intros [= <-]. reflexivity.
  - destruct (Ascii.eqb a b) eqn:Hab; [|discriminate].
    apply Ascii.eqb_eq in Hab as ->. intros ->%IH. reflexivity.
Qed.

Lemma strip_prefix_app p rest : Str.strip_prefix p (p +:+ rest) = Some rest.
Proof.
  induction p as [|a p IH]; [done|].
  change (String a p +:+ rest) with (String a (p +:+ rest)). simpl.
  by rewrite Ascii.eqb_refl.
Qed.

(** The first piece of a split is what precedes the first separator. *)
Lemma split_go_head sep cur s :
  ∃ pieces,
    Str.split_go sep cur s
    = String.rev_app cur (before_char sep s) :: pieces.
Proof.
  revert cur. induction s as [|a s IH]; intros cur; simpl; [by eexists|].
  destruct (Ascii.eqb a sep); [by eexists|].
  destruct (IH (String a cur)) as [pieces ->]. by eexists.
Qed.

(** The second piece of a header that starts with [Bearer ] is what
    stands between that first space and the next one. *)
Lemma split_bearer_token rest :
  Str.split " " ("Bearer " +:+ rest) !! 1%nat = Some (before_char " " rest).
Proof.
  change (Str.split " " ("Bearer " +:+ rest))
    with ("Bearer" :: Str.split_go " " EmptyString rest).
  by destruct (split_go_head " " EmptyString rest) as [pieces ->].
Qed.

(** ** More on token validation *)

Section Bearer.

Variable jwt_verify : string → string → option jsval.
Variable env : environment.

(** What [validateToken] does with a header of the form [Bearer ..]. *)
Lemma validateToken_bearer req rest :
  headers (msg req) !! "authorization" = Some ("Bearer " +:+ rest) →
  validateToken jwt_verify env req
  = (match jwt_verify (before_char " " rest) (jwt_secret env) with
     | Some decoded =>
         match decoded with
         | JUndefined | JNull => Done (json_unauthorized "Invalid token")
         | _ => Next (set_user req {| userId := get_field decoded "userId";
                                      role := get_field decoded "role" |})
         end
     | None => Done (json_unauthorized "Invalid token")
     end,
     [EvValidateToken; EvVerify (before_char " " rest) (jwt_secret env)]).
Proof.
  intros Hauth. unfold validateToken. rewrite Hauth, split_bearer_token.
  reflexivity.
Qed.

(** What it does with any other header, or none. *)
Lemma validateToken_no_bearer req :
  (∀ rest, headers (msg req) !! "authorization" ≠ Some ("Bearer " +:+ rest)) →
  validateToken jwt_verify env req
  = (Done (json_unauthorized "Unauthorized"), [EvValidateToken]).
Proof.
  intros Hno. unfold validateToken.
  destruct (headers (msg req) !! "authorization") as [auth|]; [|done].
  unfold Str.startsWith.
  destruct (Str.strip_prefix "Bearer " auth) as [rest|] eqn:Hs.
  - apply strip_prefix_Some in Hs as ->. by destruct (Hno rest).
  - by rewrite orb_true_r.
Qed.

Lemma bearer_or_not (h : gmap string string) :
  (∃ rest, h !! "authorization" = Some ("Bearer " +:+ rest))
  ∨ (∀ rest, h !! "authorization" ≠ Some ("Bearer " +:+ rest)).
Proof.
  destruct (h !! "authorization") as [auth|]; [|by right].
  destruct (Str.strip_prefix "Bearer " auth) as [rest|] eqn:Hs.
  - apply strip_prefix_Some in Hs as ->. left. by exists rest.
  - right. intros rest [= ->]. by rewrite strip_prefix_app in Hs.
Qed.

End Bearer.

(** A header [Bearer ..] always gets to [jwt.verify], once, and what is
    verified is the text between the first space and the next: anything
    behind a second space plays no part.  The request is let through
    exactly when that text verifies to a payload. *)
Theorem bearer_header_verifies_first_word jwt_verify env (req : request) rest :
  headers (msg req) !! "authorization" = Some ("Bearer " +:+ rest) →
  (validateToken jwt_verify env req).2
  = [EvValidateToken; EvVerify (before_char " " rest) (jwt_secret env)]
  ∧ ((∃ req', (validateToken jwt_verify env req).1 = Next req')
     ↔ ∃ decoded,
         jwt_verify (before_char " " rest) (jwt_secret env) = Some decoded
         ∧ decoded ≠ JUndefined ∧ decoded ≠ JNull).
Proof.
  intros Hauth. rewrite (validateToken_bearer _ _ _ _ Hauth). cbn [fst snd].
  split; [done|].
  destruct (jwt_verify _ _) as [decoded|].
  - destruct decoded; split;
      try (intros [req' [=]]); try (intros (d & [= <-] & Hu & Hn); done);
      try (intros _; by eexists); try (by eexists).
  - split; [intros [req' [=]] | intros (d & [=] & _)].
Qed.

Lemma bearer_header_verifies_first_word_witness :
  let req := incoming (Sample.req GET "/v1/user/me"
                         {[ "authorization" := "Bearer admin.s3cr3t C0FFEE x" ]}) in
  (validateToken Sample.jwt_verify Sample.env req).2
  = [EvValidateToken; EvVerify "admin.s3cr3t" "s3cr3t"]
  ∧ ((∃ req', (validateToken Sample.jwt_verify Sample.env req).1 = Next req')
     ↔ ∃ decoded,
         Sample.jwt_verify "admin.s3cr3t" "s3cr3t" = Some decoded
         ∧ decoded ≠ JUndefined ∧ decoded ≠ JNull).
Proof.
  intros req.
  apply (bearer_header_verifies_first_word Sample.jwt_verify Sample.env req
           "admin.s3cr3t C0FFEE x").
  reflexivity.
Defined.

(** The answer is [Unauthorized], without a call of [jwt.verify],
    exactly when the header is missing or does not start with [Bearer ],
    in that spelling: an empty header and [bearer ..] are such. *)
Theorem unauthorized_iff_no_bearer_header jwt_verify env (req : request) :
  validateToken jwt_verify env req
  = (Done (json_unauthorized "Unauthorized"), [EvValidateToken])
  ↔ ∀ rest, headers (msg req) !! "authorization" ≠ Some ("Bearer " +:+ rest).
Proof.
  split; [|apply validateToken_no_bearer].
  intros Hv rest Hauth. rewrite (validateToken_bearer _ _ _ _ Hauth) in Hv.
  discriminate.
Qed.

(** ** Every answer of the gateway *)


Section Answers.

Variable jwt_verify : string → string → option jsval.
Variable upstream : option string → Z → outbound → upstream_result.
Variable axios_get : string → settled.
Variable env : environment.
Variable now : string.

#[local] Abbreviation app := (app jwt_verify upstream axios_get env now).
#[local] Abbreviation gateway := (gateway jwt_verify upstream axios_get env now).

(** The four layers that answer by themselves. *)
#[local] Abbreviation local_layers :=
  [ get "/health" (health now); get "/" root;
    get "/swagger.json" (swagger axios_get env);
    use "/api-docs" (api_docs env) ].

#[local] Ltac refuse :=
  rewrite run_skip by
    (cbn [accepts get post use];
     match goal with
     | H : ?x = false |- ?y = false => constr_eq x y; exact H
     | H : ?x = false |- _ && ?y = false =>
         constr_eq x y; rewrite H; apply andb_false_r
     end).

(** A request is forwarded as a public one, forwarded behind the token
    check, answered by one of the local layers, or matched by no layer
    at all. *)
Lemma gateway_answer m :
  let req := incoming m in
  (∃ host, public_route env (method m) (path req) = Some host
           ∧ gateway m = forward upstream host req)
  ∨ (protected_family (path req) = true
     ∧ public_exception (method m) (path req) = false
     ∧ gateway m = guarded jwt_verify upstream env (family_host env (path req)) req)
  ∨ (∃ l res evs, l ∈ local_layers ∧ accepts l req = true
                  ∧ handle l req = (Done res, evs) ∧ gateway m = (res, evs))
  ∨ (Forall (λ l, accepts l req = false) app ∧ gateway m = (ResNotFound, [])).
Proof.
  intros req. unfold gateway. fold req.
  change (method m) with (method (msg req)).
  destruct (public_route env (method (msg req)) (path req)) as [host|] eqn:Hpub.
  { left. exists host. split; [done|]. by apply dispatch_public. }
  destruct (protected_family (path req)) eqn:Hfam.
  { right; left. split; [done|].
    assert (public_exception (method (msg req)) (path req) = false) as Hex.
    { revert Hpub. unfold public_route, public_exception.
      destruct (method_eqb _ POST); cbn [andb]; [|done].
      destruct (route_match "/v1/user/login" _); [done|].
      destruct (route_match "/v1/user/register" _); [done|].
      by destruct (route_match "/v1/payment/packages/list" _). }
    split; [done|]. by apply dispatch_protected. }
  right; right. revert Hpub Hfam. unfold public_route, protected_family.
  intros Hpub [[Hu Hw]%orb_false_elim Hp]%orb_false_elim.
  assert (method_eqb (method (msg req)) POST
          && route_match "/v1/user/login" (path req) = false
          ∧ method_eqb (method (msg req)) POST
            && route_match "/v1/user/register" (path req) = false
          ∧ method_eqb (method (msg req)) POST
            && route_match "/v1/payment/packages/list" (path req) = false
          ∧ mount_match "/v1/notification" (path req) = false)
    as (E1 & E2 & E3 & Hn).
  { destruct (method_eqb _ POST); cbn [andb] in *.
    - destruct (route_match "/v1/user/login" (path req)); [done|].
      destruct (route_match "/v1/user/register" (path req)); [done|].
      destruct (route_match "/v1/payment/packages/list" (path req)); [done|].
      by destruct (mount_match "/v1/notification" (path req)).
    - by destruct (mount_match "/v1/notification" (path req)). }
  clear Hpub. unfold app.
  destruct (accepts (get "/health" (health now)) req) eqn:A1.
  { left. eexists _, _, _. split; [apply list_elem_of_here|].
    split; [done|]. split; [reflexivity|]. by apply run_done. }
  rewrite run_skip by done.
  destruct (accepts (get "/" root) req) eqn:A2.
  { left. eexists _, _, _. split; [do 1 apply list_elem_of_further; apply list_elem_of_here|].
    split; [done|]. split; [reflexivity|]. by apply run_done. }
  rewrite run_skip by done.
  destruct (accepts (get "/swagger.json" (swagger axios_get env)) req) eqn:A3.
  { left. eexists _, _, _.
    split; [do 2 apply list_elem_of_further; apply list_elem_of_here|].
    split; [done|]. split; [reflexivity|]. by apply run_done. }
  rewrite run_skip by done.
  destruct (accepts (use "/api-docs" (api_docs env)) req) eqn:A4.
  { left. eexists _, _, _.
    split; [do 3 apply list_elem_of_further; apply list_elem_of_here|].
    split; [done|]. split; [reflexivity|]. by apply run_done. }
  rewrite run_skip by done.
  right. split; [|by do 10 refuse].
  repeat (apply Forall_cons; split;
          [first [ match goal with
                   | H : ?x = false |- ?y = false => constr_eq x y; exact H
                   end
                 | cbn [accepts get post use];
                   match goal with
                   | H : ?x = false |- ?y = false => constr_eq x y; exact H
                   end ] |]).
  apply Forall_nil_2.
Qed.

(** What a local layer answers: 200 with a JSON body or the page of
    the documentation UI, and no effect but the fetches of the
    documentation endpoint. *)
Lemma local_layer_answer l req res evs :
  l ∈ local_layers → handle l req = (Done res, evs) →
  ((∃ body, res = ResJson 200 body) ∨ (∃ url, res = ResSwaggerUi url))
  ∧ ∀ e, e ∈ evs → ∃ url, e = EvFetch url.
Proof.
  intros Hl.
  repeat (apply elem_of_cons in Hl as [-> | Hl]);
    try (by apply elem_of_nil in Hl); cbn; intros [= <- <-].
  - split; [left; by eexists|]. by intros e ?%elem_of_nil.
  - split; [left; by eexists|]. by intros e ?%elem_of_nil.
  - split; [left; by eexists|].
    intros e Hin. repeat (apply elem_of_cons in Hin as [-> | Hin]);
      try (by eexists). by apply elem_of_nil in Hin.
  - split; [right; by eexists|]. by intros e ?%elem_of_nil.
Qed.

(** What a forward answers, by the outcome of its call. *)
Lemma forward_response host req :
  match upstream host proxy_timeout (build_outbound req) with
  | Replied status hdrs content =>
      (forward upstream host req).1
      = ResRelay status (delete "transfer-encoding" hdrs) content
  | Errored code message =>
      if String.eqb code "ECONNRESET"
      then ∃ hdrs, (forward upstream host req).1 = ResRelay 504 hdrs EmptyString
      else (forward upstream host req).1 = error_handler message
  end.
Proof.
  rewrite forward_eq. cbn [fst].
  destruct (upstream _ _ _) as [status hdrs content|code message]; [done|].
  unfold handleProxyErrors. destruct (String.eqb code _); [by eexists|done].
Qed.

End Answers.

Lemma not_found_inv jwt_verify upstream axios_get env now (m : message) :
  (gateway jwt_verify upstream axios_get env now m).1 = ResNotFound →
  Forall (λ l, accepts l (incoming m) = false)
    (app jwt_verify upstream axios_get env now).
Proof.
  destruct (gateway_answer jwt_verify upstream axios_get env now m)
    as [(host & _ & ->)|[(_ & _ & ->)|[(l & res & evs & Hl & _ & Hh & ->)|[Hall _]]]];
    [| | |done].
  - pose proof (forward_response upstream host (incoming m)) as Hf.
    destruct (upstream _ _ _) as [status hdrs content|code message].
    + rewrite Hf. discriminate.
    + destruct (String.eqb code _); [destruct Hf as [hdrs ->]|rewrite Hf];
        discriminate.
  - rewrite guarded_eq.
    pose proof (validateToken_cases jwt_verify env (incoming m)) as Hv.
    destruct (validateToken _ _ _) as [[res|req'|message] evs]; [| |done].
    + destruct Hv as [_ [message ->]]. discriminate.
    + cbn [fst].
      pose proof (forward_response upstream
                    (family_host env (path (incoming m))) req') as Hf.
      destruct (upstream _ _ _) as [status hdrs content|code message].
      * rewrite Hf. discriminate.
      * destruct (String.eqb code _); [destruct Hf as [hdrs ->]|rewrite Hf];
          discriminate.
  - destruct (local_layer_answer axios_get env now _ _ _ _ Hl Hh)
      as [[[body ->]|[url ->]] _]; discriminate.
Qed.


(** The gateway answers 401 with a JSON body of its own only on a
    protected route that is no public exception, and then it has made
    no outbound call. *)
Theorem own_401_only_on_protected_routes
    jwt_verify upstream axios_get env now (m : message) body :
  (gateway jwt_verify upstream axios_get env now m).1 = ResJson 401 body →
  protected_family (path (incoming m)) = true
  ∧ public_exception (method m) (path (incoming m)) = false
  ∧ proxy_calls (gateway jwt_verify upstream axios_get env now m).2 = []
  ∧ ∃ message,
      body = JObj {[ "success" := JBool false; "message" := JStr message ]}.
Proof.
  destruct (gateway_answer jwt_verify upstream axios_get env now m)
    as [(host & _ & ->)|[(Hfam & Hex & ->)|[(l & res & evs & Hl & _ & Hh & ->)|[_ ->]]]];
    [| | |done].
  - pose proof (forward_response upstream host (incoming m)) as Hf.
    destruct (upstream _ _ _) as [status hdrs content|code message].
    + rewrite Hf. discriminate.
    + destruct (String.eqb code _); [destruct Hf as [hdrs ->]|rewrite Hf];
        discriminate.
  - rewrite guarded_eq.
    pose proof (validateToken_cases jwt_verify env (incoming m)) as Hv.
    destruct (validateToken _ _ _) as [[res|req'|message] evs]; [| |done].
    + destruct Hv as [Hcalls [message ->]]. intros [= <-]. by eauto.
    + cbn [fst].
      pose proof (forward_response upstream
                    (family_host env (path (incoming m))) req') as Hf.
      destruct (upstream _ _ _) as [status hdrs content|code message].
      * rewrite Hf. discriminate.
      * destruct (String.eqb code _); [destruct Hf as [hdrs ->]|rewrite Hf];
          discriminate.
  - destruct (local_layer_answer axios_get env now _ _ _ _ Hl Hh)
      as [[[body' ->]|[url ->]] _]; discriminate.
Qed.

Lemma own_401_only_on_protected_routes_witness :
  let m := Sample.req PATCH "/v1/payment/cards/3" ∅ in
  protected_family (path (incoming m)) = true
  ∧ public_exception (method m) (path (incoming m)) = false
  ∧ proxy_calls (Sample.gateway m).2 = []
  ∧ ∃ message,
      JObj {[ "success" := JBool false; "message" := JStr "Unauthorized" ]}
      = JObj {[ "success" := JBool false; "message" := JStr message ]}.
Proof.
  intros m.
  apply (own_401_only_on_protected_routes Sample.jwt_verify Sample.upstream
           Sample.axios_get Sample.env Sample.now m).
  reflexivity.
Defined.





(** [jwt.verify] runs only on a protected route that is no public
    exception, only on the first word after [Bearer ] of the request's
    own header, and always with the configured secret. *)
Theorem verification_only_on_protected_routes
    jwt_verify upstream axios_get env now (m : message) token secret :
  EvVerify token secret ∈ (gateway jwt_verify upstream axios_get env now m).2 →
  secret = jwt_secret env
  ∧ protected_family (path (incoming m)) = true
  ∧ public_exception (method m) (path (incoming m)) = false
  ∧ ∃ rest, headers m !! "authorization" = Some ("Bearer " +:+ rest)
            ∧ token = before_char " " rest.
Proof.
  destruct (gateway_answer jwt_verify upstream axios_get env now m)
    as [(host & _ & ->)|[(Hfam & Hex & ->)|[(l & res & evs & Hl & _ & Hh & ->)|[_ ->]]]].
  - rewrite forward_eq. by intros [=]%list_elem_of_singleton.
  - rewrite guarded_eq.
    destruct (bearer_or_not (headers m)) as [[rest Hauth]|Hno].
    2: { rewrite validateToken_no_bearer by done.
         by intros [=]%list_elem_of_singleton. }
    rewrite (validateToken_bearer _ _ (incoming m) rest) by done.
    assert (∀ evs,
              EvVerify token secret
                ∈ [EvValidateToken;
                   EvVerify (before_char " " rest) (jwt_secret env)] ++ evs →
              (∀ e, e ∈ evs → ∃ h t o, e = EvProxy h t o) →
              secret = jwt_secret env ∧ token = before_char " " rest) as Hin.
    { intros evs [[=]|[[= -> ->]|Hin]%elem_of_cons]%elem_of_cons Hevs; [done|].
      by destruct (Hevs _ Hin) as (h & t & o & [=]). }
    destruct (jwt_verify _ _) as [decoded|].
    2: { intros [-> ->]%(Hin []); [by eauto 10|]. by intros e ?%elem_of_nil. }
    destruct decoded; cbn [fst snd];
      try (intros [-> ->]%(Hin []); [by eauto 10|]; by intros e ?%elem_of_nil);
      rewrite forward_eq; cbn [snd];
      (intros [-> ->]%Hin; [by eauto 10|]);
      intros e ->%list_elem_of_singleton; by eauto.
  - intros Hin.
    destruct (local_layer_answer axios_get env now _ _ _ _ Hl Hh) as [_ Hevs].
    by destruct (Hevs _ Hin) as [url [=]].
  - by intros ?%elem_of_nil.
Qed.

Lemma verification_only_on_protected_routes_witness :
  let m := Sample.req GET "/v1/user/me"
             {[ "authorization" := "Bearer admin.s3cr3t trailing" ]} in
  "s3cr3t" = jwt_secret Sample.env
  ∧ protected_family (path (incoming m)) = true
  ∧ public_exception (method m) (path (incoming m)) = false
  ∧ ∃ rest, headers m !! "authorization" = Some ("Bearer " +:+ rest)
            ∧ "admin.s3cr3t" = before_char " " rest.
Proof.
  intros m.
  apply (verification_only_on_protected_routes Sample.jwt_verify
           Sample.upstream Sample.axios_get Sample.env Sample.now m).
  assert ((Sample.gateway m).2
          = [EvValidateToken; EvVerify "admin.s3cr3t" "s3cr3t";
             EvProxy (Some "http://user:3001") proxy_timeout
               (build_outbound
                  (set_user (incoming m)
                     {| userId := JStr "u1"; role := JStr "admin" |}))]) as Htrace
    by (vm_compute; reflexivity).
  unfold Sample.gateway in Htrace. rewrite Htrace.
  apply list_elem_of_further, list_elem_of_here.
Defined.

Lemma non_nullish_match {A} (d : jsval) (x y : A) :
  d ≠ JUndefined → d ≠ JNull →
  match d with JUndefined | JNull => x | _ => y end = y.
Proof. by destruct d. Qed.

(** On a protected route nothing is forwarded without a token that
    verified: an outbound call there means that the request carried a
    [Bearer] token which [jwt.verify] accepted, that the call goes to
    the backend of the family, and that its [x-user-id] is the [userId]
    of that token's payload, whatever the caller put under that name. *)
Theorem forward_on_protected_route_means_verified_token
    jwt_verify upstream axios_get env now (m : message) host timeout out :
  protected_family (path (incoming m)) = true →
  public_exception (method m) (path (incoming m)) = false →
  (host, timeout, out)
    ∈ proxy_calls (gateway jwt_verify upstream axios_get env now m).2 →
  host = family_host env (path (incoming m))
  ∧ ∃ decoded,
      valid_token jwt_verify env (headers m) decoded
      ∧ out_headers out !! "x-user-id" = Some (get_field decoded "userId").
Proof.
  intros Hfam Hex. unfold gateway.
  rewrite (dispatch_protected _ _ _ _ _ (incoming m) Hfam Hex), guarded_eq.
  destruct (bearer_or_not (headers m)) as [[rest Hauth]|Hno].
  2: { rewrite validateToken_no_bearer by done. by intros ?%elem_of_nil. }
  rewrite (validateToken_bearer _ _ (incoming m) rest) by done.
  destruct (jwt_verify _ _) as [decoded|] eqn:Hverify;
    [|by intros ?%elem_of_nil].
  assert (valid_token jwt_verify env (headers m) decoded
          ∨ decoded = JUndefined ∨ decoded = JNull) as [Hvalid|Hnull].
  { destruct decoded; try (by right; auto); left;
      exists ("Bearer " +:+ rest), (before_char " " rest);
      (split; [done|]); (split; [unfold Str.startsWith;
                                 by rewrite strip_prefix_app|]);
      (split; [apply split_bearer_token|]); done. }
  2: { destruct Hnull as [-> | ->]; by intros ?%elem_of_nil. }
  assert (decoded ≠ JUndefined ∧ decoded ≠ JNull) as [Hu Hn]
    by (destruct Hvalid as (_ & _ & _ & _ & _ & _ & ? & ?); done).
  rewrite non_nullish_match by done. rewrite forward_eq. cbn [fst snd].
  intros [= -> -> ->]%list_elem_of_singleton.
  split; [done|]. exists decoded. split; [exact Hvalid|].
  cbn [build_outbound out_headers].
  by apply (decorator_user_id _ _ {| userId := get_field decoded "userId";
                                     role := get_field decoded "role" |}).
Qed.

Lemma forward_on_protected_route_means_verified_token_witness :
  let m := Sample.req GET "/v1/user/me"
             {[ "authorization" := "Bearer admin.s3cr3t";
                "x-user-id" := "root" ]} in
  let out := build_outbound
               (set_user (incoming m)
                  {| userId := JStr "u1"; role := JStr "admin" |}) in
  Some "http://user:3001" = family_host Sample.env (path (incoming m))
  ∧ ∃ decoded,
      valid_token Sample.jwt_verify Sample.env (headers m) decoded
      ∧ out_headers out !! "x-user-id" = Some (get_field decoded "userId").
Proof.
  intros m out.
  apply (forward_on_protected_route_means_verified_token Sample.jwt_verify
           Sample.upstream Sample.axios_get Sample.env Sample.now m
           _ proxy_timeout out).
  - reflexivity.
  - reflexivity.
  - assert (proxy_calls (Sample.gateway m).2
            = [(Some "http://user:3001", proxy_timeout, out)]) as Hcalls
      by (vm_compute; reflexivity).
    unfold Sample.gateway in Hcalls. rewrite Hcalls. apply list_elem_of_here.
Defined.

(** ** More on routing *)

Lemma strip_prefix_ci_app a b s rest :
  Str.strip_prefix_ci (a +:+ b) s = Some rest →
  ∃ mid, Str.strip_prefix_ci a s = Some mid
         ∧ Str.strip_prefix_ci b mid = Some rest.
Proof.
  revert s. induction a as [|c a IH]; intros s.
  { change (EmptyString +:+ b) with b. by eauto. }
  change (String c a +:+ b) with (String c (a +:+ b)). simpl.
  destruct s as [|d s]; [done|].
  destruct (Ascii.eqb _ _); [apply IH | done].
Qed.

Lemma strip_prefix_ci_before_query p s rest :
  Str.strip_prefix_ci p (Str.before_query s) = Some rest →
  ∃ rest', Str.strip_prefix_ci p s = Some rest'
           ∧ Str.before_query rest' = rest.
Proof.
  revert s. induction p as [|a p IH]; intros s; simpl.
  { intros [= <-]. by eauto. }
  destruct s as [|c s]; simpl; [done|].
  destruct (Ascii.eqb c "?"); [done|]. simpl.
  destruct (Ascii.eqb _ _); [apply IH | done].
Qed.

Lemma strip_prefix_ci_exact p s rest :
  Str.strip_prefix p s = Some rest → Str.strip_prefix_ci p s = Some rest.
Proof.
  revert s. induction p as [|a p IH]; intros [|c s]; simpl; try done.
  destruct (Ascii.eqb a c) eqn:Hac; [|done].
  apply Ascii.eqb_eq in Hac as ->. rewrite Ascii.eqb_refl. apply IH.
Qed.

(** Only [/] is a slash up to case. *)
Lemma lower_slash c :
  Ascii.eqb (Str.lower "/") (Str.lower c) = true → c = "/"%char.
Proof.
  destruct c as [[] [] [] [] [] [] [] []]; vm_compute; congruence.
Qed.




Lemma route_under_v1 sub p :
  Str.drop_trailing_slash ("/v1/" +:+ sub) = "/v1/" +:+ sub →
  route_match ("/v1/" +:+ sub) p = true →
  ∃ mid, Str.strip_prefix_ci "/v1/" p = Some mid.
Proof.
  intros Hs [rest Hstrip]%route_match_strip. rewrite Hs in Hstrip.
  apply strip_prefix_ci_app in Hstrip as (mid & Hmid & _). by eauto.
Qed.

Lemma mount_under_v1 sub p :
  Str.drop_trailing_slash ("/v1/" +:+ sub) = "/v1/" +:+ sub →
  mount_match ("/v1/" +:+ sub) p = true →
  ∃ mid, Str.strip_prefix_ci "/v1/" p = Some mid.
Proof.
  intros Hs [rest Hstrip]%mount_match_strip. rewrite Hs in Hstrip.
  apply strip_prefix_ci_app in Hstrip as (mid & Hmid & _). by eauto.
Qed.

Lemma proxy_calls_elem host timeout out evs :
  (host, timeout, out) ∈ proxy_calls evs → EvProxy host timeout out ∈ evs.
Proof.
  unfold proxy_calls. intros (e & He & Hcall)%list_elem_of_omap.
  destruct e; try discriminate. by injection Hcall as -> -> ->.
Qed.

(** What is forwarded lies below [/v1/], up to case. *)
Lemma forwarded_under_v1 jwt_verify upstream axios_get env now m host timeout out :
  (host, timeout, out)
    ∈ proxy_calls (gateway jwt_verify upstream axios_get env now m).2 →
  ∃ mid, Str.strip_prefix_ci "/v1/" (path (incoming m)) = Some mid.
Proof.
  destruct (gateway_answer jwt_verify upstream axios_get env now m)
    as [(host' & Hpub & _)|[(Hfam & _ & _)|[(l & res & evs & Hl & _ & Hh & ->)|[_ ->]]]].
  - intros _. revert Hpub. unfold public_route.
    destruct (route_match "/v1/user/login" (path (incoming m))) eqn:Hl.
    { intros _. by apply (route_under_v1 "user/login"). }
    destruct (route_match "/v1/user/register" (path (incoming m))) eqn:Hr.
    { intros _. by apply (route_under_v1 "user/register"). }
    destruct (route_match "/v1/payment/packages/list" (path (incoming m)))
      eqn:Hk.
    { intros _. by apply (route_under_v1 "payment/packages/list"). }
    rewrite !andb_false_r.
    destruct (mount_match "/v1/notification" (path (incoming m))) eqn:Hn;
      [|done].
    intros _. by apply (mount_under_v1 "notification").
  - intros _. revert Hfam. unfold protected_family.
    intros [[H|H]%orb_true_iff|H]%orb_true_iff.
    + by apply (mount_under_v1 "user").
    + by apply (mount_under_v1 "worksheet").
    + by apply (mount_under_v1 "payment").
  - intros Hin%proxy_calls_elem.
    destruct (local_layer_answer axios_get env now _ _ _ _ Hl Hh) as [_ Hevs].
    by destruct (Hevs _ Hin) as [url [=]].
  - by intros ?%elem_of_nil.
Qed.

(** Every URL the gateway forwards begins with [/v1/] up to letter
    case.  The backend receives it with [/api/] in place of that prefix
    exactly when the prefix was written [/v1]; with any other casing the
    URL goes out as it came. *)
Theorem forwarded_url_is_under_v1
    jwt_verify upstream axios_get env now (m : message) host timeout out :
  (host, timeout, out)
    ∈ proxy_calls (gateway jwt_verify upstream axios_get env now m).2 →
  ∃ rest,
    Str.strip_prefix_ci "/v1/" (originalUrl m) = Some rest
    ∧ out_path out
      = if Str.startsWith (originalUrl m) "/v1" then "/api/" +:+ rest
        else originalUrl m.
Proof.
  intros Hcall.
  destruct (forwarded_under_v1 _ _ _ _ _ _ _ _ _ Hcall) as [mid Hmid].
  unfold path in Hmid. cbn [msg incoming] in Hmid.
  apply strip_prefix_ci_before_query in Hmid as (rest & Hrest & _).
  apply gateway_call in Hcall as (_ & _ & req & <- & -> & _).
  exists rest. split; [done|].
  cbn [build_outbound out_path]. unfold proxyReqPathResolver.
  unfold Str.startsWith, Str.replace_leading.
  destruct (Str.strip_prefix "/v1" (originalUrl (msg req))) as [r|] eqn:Hr;
    [|done].
  apply strip_prefix_Some in Hr. rewrite Hr in Hrest.
  change (Str.strip_prefix_ci "/v1/" ("/v1" +:+ r))
    with (Str.strip_prefix_ci "/" r) in Hrest.
  destruct r as [|c r]; [done|]. cbn [Str.strip_prefix_ci] in Hrest.
  destruct (Ascii.eqb (Str.lower "/") (Str.lower c)) eqn:Hc; [|done].
  apply lower_slash in Hc as ->. by injection Hrest as ->.
Qed.

Lemma forwarded_url_is_under_v1_witness :
  let m := Sample.req POST "/V1/User/Login?next=/v1" ∅ in
  ∃ rest,
    Str.strip_prefix_ci "/v1/" (originalUrl m) = Some rest
    ∧ out_path (build_outbound (incoming m))
      = if Str.startsWith (originalUrl m) "/v1" then "/api/" +:+ rest
        else originalUrl m.
Proof.
  intros m.
  apply (forwarded_url_is_under_v1 Sample.jwt_verify Sample.upstream
           Sample.axios_get Sample.env Sample.now m
           (Some "http://user:3001") proxy_timeout).
  assert (proxy_calls (Sample.gateway m).2
          = [(Some "http://user:3001", proxy_timeout,
              build_outbound (incoming m))]) as Hcalls
    by (vm_compute; reflexivity).
  unfold Sample.gateway in Hcalls. rewrite Hcalls. apply list_elem_of_here.
Defined.

(** ** More on the merged documentation *)








(** When no fetch contributes anything (each is rejected, or fulfilled
    with an empty body or with a document that has neither [paths] nor
    [components]), the answer is the bare document: no path, and the
    bearer scheme as the only component. *)
Theorem nothing_contributed_gives_bare_document (results : list settled) :
  Forall (λ r, contribution "paths" r = ∅ ∧ contribution "components" r = ∅)
    results →
  get_field (swagger_document results) "paths" = JObj ∅
  ∧ get_field (swagger_document results) "components"
    = JObj {[ "securitySchemes" := bearerAuth_scheme ]}.
Proof.
  intros Hall.
  assert (merge_results results = (∅, ∅)) as Hmerged.
  { unfold merge_results.
    generalize (∅ : gmap string jsval, ∅ : gmap string jsval).
    induction Hall as [|r results [Hp Hc] _ IH]; intros merged; [done|].
    cbn [foldl]. rewrite IH. apply injective_projections.
    - by rewrite merge_result_paths, Hp, (left_id_L ∅ (∪)).
    - by rewrite merge_result_components, Hc, (left_id_L ∅ (∪)). }
  by rewrite swagger_document_paths, swagger_document_components, Hmerged.
Qed.

Lemma nothing_contributed_gives_bare_document_witness :
  let results := [Rejected; Fulfilled (JStr EmptyString); Rejected;
                  Fulfilled (JObj {[ "openapi" := JStr "3.0.0" ]})] in
  get_field (swagger_document results) "paths" = JObj ∅
  ∧ get_field (swagger_document results) "components"
    = JObj {[ "securitySchemes" := bearerAuth_scheme ]}.
Proof.
  intros results. apply nothing_contributed_gives_bare_document.
  repeat (apply Forall_cons; split; [split; reflexivity|]).
  apply Forall_nil_2.
Defined.

(** ** The decorator, the origins, the local endpoints *)

(** The decorator writes [x-user-id], [x-user-role] and [authorization]
    and nothing else: every other header of the outbound options is as
    it was, and no header at all is removed. *)
Theorem decorator_only_writes_three_headers
    (proxyReqOpts : gmap string jsval) (srcReq : request) k :
  (k ≠ "x-user-id" → k ≠ "x-user-role" → k ≠ "authorization" →
   proxyReqOptDecorator proxyReqOpts srcReq !! k = proxyReqOpts !! k)
  ∧ (is_Some (proxyReqOpts !! k) →
     is_Some (proxyReqOptDecorator proxyReqOpts srcReq !! k)).
Proof.
  unfold proxyReqOptDecorator. split.
  - intros H1 H2 H3.
    destruct (user srcReq) as [u|]; [destruct (truthy (role u))|];
      destruct (truthy (of_slot _));
      by rewrite ?lookup_insert_ne by done.
  - intros Hk.
    destruct (user srcReq) as [u|]; [destruct (truthy (role u))|];
      destruct (truthy (of_slot _));
      repeat (rewrite lookup_insert; case_decide; [by eauto|]); done.
Qed.

Lemma split_go_no_sep sep cur s :
  has_char sep s = false → Str.split_go sep cur s = [String.rev_app cur s].
Proof.
  revert cur. induction s as [|a s IH]; intros cur; simpl; [done|].
  destruct (Ascii.eqb a sep); [done|]. intros Hs. by rewrite IH.
Qed.

Lemma split_go_app sep cur s rest :
  has_char sep s = false →
  Str.split_go sep cur (s +:+ String sep rest)
  = String.rev_app cur s :: Str.split_go sep EmptyString rest.
Proof.
  revert cur. induction s as [|a s IH]; intros cur.
  { intros _. change (EmptyString +:+ String sep rest) with (String sep rest).
    simpl. by rewrite Ascii.eqb_refl. }
  change (String a s +:+ String sep rest)
    with (String a (s +:+ String sep rest)). simpl.
  destruct (Ascii.eqb a sep); [done|]. intros Hs. by rewrite IH.
Qed.

Lemma split_join sep l :
  l ≠ [] → Forall (λ s, has_char sep s = false) l →
  Str.split sep (join sep l) = l.
Proof.
  intros Hl Hall. unfold Str.split.
  induction Hall as [|s l Hs Hall IH]; [done|].
  destruct l as [|s' l].
  - cbn [join]. by rewrite split_go_no_sep.
  - change (join sep (s :: s' :: l)) with (s +:+ String sep (join sep (s' :: l))).
    rewrite split_go_app by done. by rewrite IH.
Qed.

(** Listing origins in [CORS_ORIGINS], separated by commas, allows
    exactly those origins, each as it is written (nothing is trimmed),
    provided none contains a comma and the variable is not empty. *)
Theorem cors_origin_lists_what_is_configured (l : list string) :
  l ≠ [] → Forall (λ s, has_char "," s = false) l →
  join "," l ≠ EmptyString →
  cors_origin (Some (join "," l)) = l.
Proof.
  intros Hl Hall Hne. unfold cors_origin. cbn [truthy].
  destruct (String.eqb (join "," l) EmptyString) eqn:Heq.
  { by apply String.eqb_eq in Heq. }
  by apply split_join.
Qed.

Lemma cors_origin_lists_what_is_configured_witness :
  cors_origin (Some "https://app.example.org, http://localhost:4005")
  = ["https://app.example.org"; " http://localhost:4005"].
Proof.
  apply (cors_origin_lists_what_is_configured
           ["https://app.example.org"; " http://localhost:4005"]).
  - discriminate.
  - repeat constructor.
  - discriminate.
Defined.



(** Every path that the root endpoint advertises is served: a [GET] on
    it is accepted by a layer of the stack and is never answered by the
    gateway's 404. *)
Theorem advertised_endpoints_are_served
    jwt_verify upstream axios_get env now (req0 : request) answer p h b :
  root req0 = (Done (ResJson 200 answer), []) →
  advertised answer p →
  (gateway jwt_verify upstream axios_get env now
     {| method := GET; originalUrl := p; headers := h; body := b |}).1
  ≠ ResNotFound.
Proof.
  intros [= <-] [name Hname] Hnf%not_found_inv. revert Hname.
  cbn [get_field].
  rewrite !lookup_insert_ne, lookup_singleton_eq by done.
  cbn [default from_option id get_field].
  match goal with
  | |- context [?endpoints !! name] =>
      destruct (endpoints !! name) as [v|] eqn:Hlookup; [|done]
  end.
  cbn [default from_option id]. intros ->. revert Hlookup.
  repeat (intros [[<- [= <-]]|[_ Hlookup]]%lookup_insert_Some;
          [|revert Hlookup]).
  6: intros [<- [= <-]]%lookup_singleton_Some.
  - pose proof (Forall_lookup_1 _ _ 0 _ Hnf eq_refl) as H.
    vm_compute in H. discriminate.
  - pose proof (Forall_lookup_1 _ _ 3 _ Hnf eq_refl) as H.
    vm_compute in H. discriminate.
  - pose proof (Forall_lookup_1 _ _ 7 _ Hnf eq_refl) as H.
    vm_compute in H. discriminate.
  - pose proof (Forall_lookup_1 _ _ 9 _ Hnf eq_refl) as H.
    vm_compute in H. discriminate.
  - pose proof (Forall_lookup_1 _ _ 11 _ Hnf eq_refl) as H.
    vm_compute in H. discriminate.
  - pose proof (Forall_lookup_1 _ _ 13 _ Hnf eq_refl) as H.
    vm_compute in H. discriminate.
Qed.

Lemma advertised_endpoints_are_served_witness :
  (Sample.gateway (Sample.req GET "/v1/worksheet" ∅)).1 ≠ ResNotFound.
Proof.
  apply (advertised_endpoints_are_served Sample.jwt_verify Sample.upstream
           Sample.axios_get Sample.env Sample.now (incoming (Sample.req GET "/" ∅))
           _ "/v1/worksheet" ∅ EmptyString eq_refl).
  exists "worksheet". reflexivity.
Defined.

(** Backend documentation is fetched only for the documentation
    endpoint, and only from the four documentation URLs of the
    configuration: a fetch in the trace of a request means that the
    request was a [GET] or [HEAD] on [/swagger.json]. *)
Theorem fetches_only_for_documentation
    jwt_verify upstream axios_get env now (m : message) url :
  EvFetch url ∈ (gateway jwt_verify upstream axios_get env now m).2 →
  (method m = GET ∨ method m = HEAD)
  ∧ route_match "/swagger.json" (path (incoming m)) = true
  ∧ url ∈ services env.
Proof.
  destruct (gateway_answer jwt_verify upstream axios_get env now m)
    as [(host & _ & ->)|[(_ & _ & ->)|[(l & res & evs & Hl & Hacc & Hh & ->)|[_ ->]]]].
  - rewrite forward_eq. by intros [=]%list_elem_of_singleton.
  - rewrite guarded_eq.
    destruct (bearer_or_not (headers m)) as [[rest Hauth]|Hno].
    2: { rewrite validateToken_no_bearer by done.
         by intros [=]%list_elem_of_singleton. }
    rewrite (validateToken_bearer _ _ (incoming m) rest) by done.
    assert (∀ evs,
              EvFetch url
                ∈ [EvValidateToken;
                   EvVerify (before_char " " rest) (jwt_secret env)] ++ evs →
              (∀ e, e ∈ evs → ∃ h t o, e = EvProxy h t o) → False) as Hin.
    { intros evs [[=]|[[=]|Hin]%elem_of_cons]%elem_of_cons Hevs.
      by destruct (Hevs _ Hin) as (h & t & o & [=]). }
    destruct (jwt_verify _ _) as [decoded|].
    2: { intros []%(Hin []). by intros e ?%elem_of_nil. }
    destruct decoded; cbn [fst snd];
      try (intros []%(Hin []); by intros e ?%elem_of_nil);
      rewrite forward_eq; cbn [snd];
      intros []%Hin; intros e ->%list_elem_of_singleton; by eauto.
  - revert Hacc Hh. cbn [fst snd].
    repeat (apply elem_of_cons in Hl as [-> | Hl]);
      try (by apply elem_of_nil in Hl); cbn; intros Hacc [= <- <-];
      try (by intros ?%elem_of_nil).
    apply andb_true_iff in Hacc as [Hmethod Hroute].
    intros Hin. split; [|split; [done|]].
    + destruct (method m); try done; by auto.
    + change (EvFetch url ∈ EvFetch <$> services env) in Hin.
      by apply list_elem_of_fmap in Hin as (url' & [= ->] & Hurl).
  - by intros ?%elem_of_nil.
Qed.

Lemma fetches_only_for_documentation_witness :
  let m := Sample.req GET "/swagger.json" ∅ in
  (method m = GET ∨ method m = HEAD)
  ∧ route_match "/swagger.json" (path (incoming m)) = true
  ∧ "http://payment:3003/docs/swagger.json" ∈ services Sample.env.
Proof.
  intros m.
  apply (fetches_only_for_documentation Sample.jwt_verify Sample.upstream
           Sample.axios_get Sample.env Sample.now m).
  assert ((Sample.gateway m).2
          = EvFetch <$> ["http://user:3001/docs/swagger.json";
                         "http://worksheet:3002/docs/swagger.json";
                         "http://payment:3003/docs/swagger.json";
                         "http://notification:3004/docs/swagger.json"])
    as Htrace by (vm_compute; reflexivity).
  unfold Sample.gateway in Htrace. rewrite Htrace.
  do 2 apply list_elem_of_further. apply list_elem_of_here.
Defined.

Lemma decorator_only_writes_three_headers_witness :
  let req := set_user
               (incoming (Sample.req GET "/v1/user/me"
                            {[ "authorization" := "Bearer admin.s3cr3t";
                               "accept" := "application/json" ]}))
               {| userId := JStr "u1"; role := JStr "admin" |} in
  proxyReqOptDecorator (reqHeaders req) req !! "accept"
  = Some (JStr "application/json")
  ∧ is_Some (proxyReqOptDecorator (reqHeaders req) req !! "connection").
Proof.
  intros req.
  destruct (decorator_only_writes_three_headers (reqHeaders req) req "accept")
    as [Hsame _].
  destruct (decorator_only_writes_three_headers (reqHeaders req) req
              "connection") as [_ Hkept].
  split.
  - rewrite Hsame by discriminate. reflexivity.
  - apply Hkept. by eexists.
Defined.
